(** * Library loans: the loan lifecycle of [PrestamoController] and the
      read operations of [LibroController], embedded from the Python source.

    Tables are finite maps from primary key to row.  A controller method runs
    in a small state-and-exception monad: the state holds the controller's
    [self.session], the committed rows, the clock readings taken so far and
    what was printed; the environment says which calls into the persistence
    layer raise, what the clock reads and how the engine evaluates LIKE. *)

From Stdlib Require Import Ascii String.
From stdpp Require Import gmap strings list fin_maps.

Local Open Scope Z_scope.
Local Open Scope string_scope.

(** ** models/models.py *)

(** A [DateTime] value, in microseconds. *)
Definition datetime := Z.

(** [timedelta(days=n)] *)
Definition timedelta (days : Z) : Z := days * 86400000000.

(** Python truth value of a nullable Boolean column. *)
Definition truthy (v : option bool) : bool :=
  match v with
  | Some true => true
  | _ => false
  end.

Module Autor.
Record t := Build {
  Nombres : string;
  Apellidos : string;
  Nacionalidad : string;
  OtrosDetalles : option string
}.
Definition nombre_completo (self : t) : string :=
  Nombres self +:+ " " +:+ Apellidos self.
End Autor.

Module Categoria.
Record t := Build {
  Descripción : string;
  OtrosDetalles : option string
}.
End Categoria.

(** Rows of [tblLibros]; the primary key [ISBN] is the key of the table. *)
Module Libro.
Record t := Build {
  Título : string;
  Publicación : string;
  FechaPublicación : Z;
  IdCategoría : Z;
  IdAutor : Z;
  OtrosDetalles : option string;
  Disponible : option bool
}.
Definition con_Disponible (v : option bool) (self : t) : t :=
  Build (Título self) (Publicación self) (FechaPublicación self)
        (IdCategoría self) (IdAutor self) (OtrosDetalles self) v.
End Libro.

(** Rows of [tblUsuarios]; the primary key [IdUsuario] is the key of the table. *)
Module Usuario.
Record t := Build {
  Nombres : string;
  Apellidos : string;
  Direccion : option string;
  CorreoElectronico : option string;
  UsuarioActivo : option bool
}.
Definition nombre_completo (self : t) : string :=
  Nombres self +:+ " " +:+ Apellidos self.
End Usuario.

(** Rows of [tblPrestamos]; the primary key [IdPrestamo] is the key of the
    table.  [MultaPagar] is kept in hundredths. *)
Module Prestamo.
Record t := Build {
  IdUsuario : Z;
  ISBN : string;
  FechaPréstamo : option datetime;
  FechaVencimiento : datetime;
  FechaDevolución : option datetime;
  MultaPagar : option Z;
  OtrosDetalles : option string
}.
Definition con_FechaDevolución (v : option datetime) (self : t) : t :=
  Build (IdUsuario self) (ISBN self) (FechaPréstamo self)
        (FechaVencimiento self) v (MultaPagar self) (OtrosDetalles self).
(** [MultaPagar = Column(..., default=0)]: a row added without a value for the
    column is inserted with 0. *)
Definition con_defaults (self : t) : t :=
  Build (IdUsuario self) (ISBN self) (FechaPréstamo self)
        (FechaVencimiento self) (FechaDevolución self)
        (Some (default 0 (MultaPagar self))) (OtrosDetalles self).
(** A loan is open while it has no return date. *)
Definition abierto (self : t) : Prop := FechaDevolución self = None.
End Prestamo.

(** ** database.py: the store and its sessions *)

Record BaseDatos := {
  tblAutores : gmap Z Autor.t;
  tblCategorías : gmap Z Categoria.t;
  tblLibros : gmap string Libro.t;
  tblUsuarios : gmap Z Usuario.t;
  tblPrestamos : gmap Z Prestamo.t
}.

Definition con_tblLibros (v : gmap string Libro.t) (d : BaseDatos) : BaseDatos :=
  {| tblAutores := tblAutores d; tblCategorías := tblCategorías d;
     tblLibros := v; tblUsuarios := tblUsuarios d;
     tblPrestamos := tblPrestamos d |}.

Definition con_tblPrestamos (v : gmap Z Prestamo.t) (d : BaseDatos) : BaseDatos :=
  {| tblAutores := tblAutores d; tblCategorías := tblCategorías d;
     tblLibros := tblLibros d; tblUsuarios := tblUsuarios d;
     tblPrestamos := v |}.

(** [IdPrestamo] is [autoincrement]: the next key lies above every key in use. *)
Definition siguiente_id (m : gmap Z Prestamo.t) : Z :=
  1 + foldr Z.max 0 (elements (dom m)).

(** A session ([autocommit=False, autoflush=False]): the rows as the session
    sees them, with its unflushed attribute changes, and the objects handed to
    [session.add] that wait for the next flush. *)
Record Session := {
  filas : BaseDatos;
  nuevos : list Prestamo.t
}.

(** INSERT of one pending loan: column defaults are filled in and the key is
    generated. *)
Definition insertar (p : Prestamo.t) (d : BaseDatos) : BaseDatos :=
  con_tblPrestamos
    (<[siguiente_id (tblPrestamos d) := Prestamo.con_defaults p]> (tblPrestamos d)) d.

(** The flush that [commit] performs: pending objects are inserted in the
    order they were added. *)
Definition flush (ses : Session) : BaseDatos :=
  foldl (fun d p => insertar p d) (filas ses) (nuevos ses).

(** The calls a controller makes into the persistence layer; a controller
    method makes each of them at most once. *)
Inductive llamada :=
| GetSession
| QueryLibro
| QueryUsuario
| QueryPrestamo
| Commit
| Rollback
| Close.

(** What the controllers cannot see: for each call into the persistence layer
    whether it raises (and with which message), the successive readings of
    [datetime.now()], and the engine's [value LIKE pattern]. *)
Record Entorno := {
  falla : llamada -> option string;
  ahora : nat -> datetime;
  like : string -> string -> bool
}.

(** The state a controller method runs in. *)
Record Estado := {
  self_session : option Session;
  db : BaseDatos;
  lecturas : nat;
  stdout : list string
}.

Definition con_self_session (v : option Session) (s : Estado) : Estado :=
  {| self_session := v; db := db s; lecturas := lecturas s; stdout := stdout s |}.

Definition con_db (v : BaseDatos) (s : Estado) : Estado :=
  {| self_session := self_session s; db := v; lecturas := lecturas s;
     stdout := stdout s |}.

(** ** Control flow: return, raise, try / except / finally *)

Inductive Res (A : Type) :=
| Ok (a : A)
| Raise (e : string).
Arguments Ok {A} a.
Arguments Raise {A} e.

Definition M (A : Type) : Type := Entorno -> Estado -> Res A * Estado.

Definition ret {A} (a : A) : M A := fun _ s => (Ok a, s).

Definition raise {A} (e : string) : M A := fun _ s => (Raise e, s).

Definition bind {A B} (m : M A) (k : A -> M B) : M B :=
  fun E s =>
    match m E s with
    | (Ok a, s1) => k a E s1
    | (Raise e, s1) => (Raise e, s1)
    end.

Notation "'let*' x ':=' m 'in' k" := (bind m (fun x => k))
  (at level 10, x name, m at level 100, k at level 200).
Notation "m '>>' k" := (bind m (fun _ => k))
  (at level 90, right associativity).

(** [try: cuerpo  except Exception as e: manejador e  finally: final].  The
    [finally] block runs on every way out, and an exception raised in it
    replaces the pending result. *)
Definition try_except_finally {A} (cuerpo : M A) (manejador : string -> M A)
    (final : M unit) : M A :=
  fun E s =>
    let '(r, s1) :=
      match cuerpo E s with
      | (Ok a, s1) => (Ok a, s1)
      | (Raise e, s1) => manejador e E s1
      end in
    match final E s1 with
    | (Ok _, s2) => (r, s2)
    | (Raise e, s2) => (Raise e, s2)
    end.

(** A call into the persistence layer raises when the environment says so. *)
Definition llamar (c : llamada) : M unit :=
  fun E s =>
    match falla E c with
    | Some e => (Raise e, s)
    | None => (Ok tt, s)
    end.

Definition print (linea : string) : M unit :=
  fun _ s =>
    (Ok tt, {| self_session := self_session s; db := db s;
               lecturas := lecturas s; stdout := stdout s ++ [linea] |}).

(** [datetime.now()]: the next reading of the clock. *)
Definition datetime_now : M datetime :=
  fun E s =>
    (Ok (ahora E (lecturas s)),
     {| self_session := self_session s; db := db s;
        lecturas := S (lecturas s); stdout := stdout s |}).

(** ** The session held in [self.session] *)

(** [Database.get_session]: a new session; it sees the committed rows. *)
Definition db_get_session : M Session :=
  llamar GetSession >>
  fun E s => (Ok {| filas := db s; nuevos := [] |}, s).

(** [get_session]: reuse [self.session] or open one. *)
Definition get_session : M unit :=
  fun E s =>
    match self_session s with
    | Some _ => (Ok tt, s)
    | None =>
        (let* ses := db_get_session in
         fun _ s1 => (Ok tt, con_self_session (Some ses) s1)) E s
    end.

(** [close_session]: [self.session] is cleared only after [close()] returned. *)
Definition close_session : M unit :=
  fun E s =>
    match self_session s with
    | Some _ =>
        (llamar Close >>
         fun _ s1 => (Ok tt, con_self_session None s1)) E s
    | None => (Ok tt, s)
    end.

(** Reading through the session object; using a session that is not there is
    an error of its own. *)
Definition con_session {A} (f : Session -> A) : M A :=
  fun _ s =>
    match self_session s with
    | Some ses => (Ok (f ses), s)
    | None => (Raise "'NoneType' object has no attribute 'query'", s)
    end.

(** Changing the objects the session holds; nothing is sent to the store. *)
Definition modificar_session (f : Session -> Session) : M unit :=
  fun _ s =>
    match self_session s with
    | Some ses => (Ok tt, con_self_session (Some (f ses)) s)
    | None => (Raise "'NoneType' object has no attribute 'query'", s)
    end.

(** [session.query(Libro).filter(Libro.ISBN == isbn).first()] *)
Definition query_Libro_first (isbn : string) : M (option Libro.t) :=
  llamar QueryLibro >> con_session (fun ses => tblLibros (filas ses) !! isbn).

(** [session.query(Usuario).filter(Usuario.IdUsuario == usuario_id).first()] *)
Definition query_Usuario_first (usuario_id : Z) : M (option Usuario.t) :=
  llamar QueryUsuario >>
  con_session (fun ses => tblUsuarios (filas ses) !! usuario_id).

(** [session.query(Prestamo).filter(Prestamo.IdPrestamo == id_prestamo).first()] *)
Definition query_Prestamo_first (id_prestamo : Z) : M (option Prestamo.t) :=
  llamar QueryPrestamo >>
  con_session (fun ses => tblPrestamos (filas ses) !! id_prestamo).

(** [libro.Disponible = v] on the book loaded under [isbn]. *)
Definition set_Disponible (isbn : string) (v : bool) : M unit :=
  modificar_session (fun ses =>
    {| filas := con_tblLibros
                  (alter (Libro.con_Disponible (Some v)) isbn (tblLibros (filas ses)))
                  (filas ses);
       nuevos := nuevos ses |}).

(** [prestamo.FechaDevolución = v] on the loan loaded under [id_prestamo]. *)
Definition set_FechaDevolución (id_prestamo : Z) (v : datetime) : M unit :=
  modificar_session (fun ses =>
    {| filas := con_tblPrestamos
                  (alter (Prestamo.con_FechaDevolución (Some v)) id_prestamo
                         (tblPrestamos (filas ses)))
                  (filas ses);
       nuevos := nuevos ses |}).

(** [session.add(p)] *)
Definition session_add (p : Prestamo.t) : M unit :=
  modificar_session (fun ses =>
    {| filas := filas ses; nuevos := nuevos ses ++ [p] |}).

(** [session.commit()]: flush and commit in one transaction; when it raises
    nothing has reached the store. *)
Definition session_commit : M unit :=
  llamar Commit >>
  fun _ s =>
    match self_session s with
    | Some ses =>
        (Ok tt, con_db (flush ses)
                  (con_self_session (Some {| filas := flush ses; nuevos := [] |}) s))
    | None => (Raise "'NoneType' object has no attribute 'commit'", s)
    end.

(** [session.rollback()]: the session forgets its pending changes. *)
Definition session_rollback : M unit :=
  llamar Rollback >>
  fun _ s =>
    match self_session s with
    | Some _ =>
        (Ok tt, con_self_session (Some {| filas := db s; nuevos := [] |}) s)
    | None => (Raise "'NoneType' object has no attribute 'rollback'", s)
    end.

(** ** controllers/prestamo_controller.py *)

(** [PrestamoController.crear_prestamo].  The session is taken before the
    [try]; the checks return from inside it; [FechaPréstamo] and
    [FechaVencimiento] each call [datetime.now()]; [MultaPagar] is not given. *)
Definition crear_prestamo (isbn : string) (usuario_id : Z) : M (bool * string) :=
  get_session >>
  try_except_finally
    (let* libro := query_Libro_first isbn in
     match libro with
     | None => ret (false, "Libro no encontrado.")
     | Some libro =>
         if negb (truthy (Libro.Disponible libro)) then
           ret (false, "El libro '" +:+ Libro.Título libro +:+ "' ya está prestado.")
         else
           let* usuario := query_Usuario_first usuario_id in
           match usuario with
           | None => ret (false, "Usuario no encontrado.")
           | Some _ =>
               let* t_prestamo := datetime_now in
               let* t_vencimiento := datetime_now in
               let nuevo_prestamo :=
                 {| Prestamo.IdUsuario := usuario_id;
                    Prestamo.ISBN := isbn;
                    Prestamo.FechaPréstamo := Some t_prestamo;
                    Prestamo.FechaVencimiento := t_vencimiento + timedelta 14;
                    Prestamo.FechaDevolución := None;
                    Prestamo.MultaPagar := None;
                    Prestamo.OtrosDetalles := None |} in
               set_Disponible isbn false >>
               session_add nuevo_prestamo >>
               session_commit >>
               ret (true, "Préstamo realizado exitosamente.")
           end
     end)
    (fun e =>
       session_rollback >>
       print ("Error al procesar préstamo: " +:+ e) >>
       ret (false, "Error al procesar préstamo: " +:+ e))
    close_session.

(** [PrestamoController.devolver_libro].  The book is looked up after the
    return date is set, and a missing book only skips the flag. *)
Definition devolver_libro (id_prestamo : Z) : M (bool * string) :=
  get_session >>
  try_except_finally
    (let* prestamo := query_Prestamo_first id_prestamo in
     match prestamo with
     | None => ret (false, "Préstamo no encontrado.")
     | Some prestamo =>
         if bool_decide (is_Some (Prestamo.FechaDevolución prestamo)) then
           ret (false, "Este préstamo ya fue devuelto.")
         else
           let* t_devolucion := datetime_now in
           set_FechaDevolución id_prestamo t_devolucion >>
           let* libro := query_Libro_first (Prestamo.ISBN prestamo) in
           (match libro with
            | Some _ => set_Disponible (Prestamo.ISBN prestamo) true
            | None => ret tt
            end) >>
           session_commit >>
           ret (true, "Libro devuelto correctamente. ¡Gracias!")
     end)
    (fun e =>
       session_rollback >>
       ret (false, "Error en devolución: " +:+ e))
    close_session.

(** [obtener_prestamos_activos] returns loans with [libro] and [usuario]
    loaded ([joinedload]: an outer join, so a missing row loads as [None]). *)
Record PrestamoCargado := {
  IdPrestamo : Z;
  prestamo : Prestamo.t;
  libro : option Libro.t;
  usuario : option Usuario.t
}.

Definition cargar_prestamo (d : BaseDatos) (fila : Z * Prestamo.t) : PrestamoCargado :=
  {| IdPrestamo := fst fila;
     prestamo := snd fila;
     libro := tblLibros d !! Prestamo.ISBN (snd fila);
     usuario := tblUsuarios d !! Prestamo.IdUsuario (snd fila) |}.

(** [session.query(Prestamo).options(...).filter(Prestamo.FechaDevolución == None).all()] *)
Definition query_Prestamo_activos : M (list PrestamoCargado) :=
  llamar QueryPrestamo >>
  con_session (fun ses =>
    cargar_prestamo (filas ses) <$>
      List.filter (fun fila => bool_decide (Prestamo.FechaDevolución (snd fila) = None))
                  (map_to_list (tblPrestamos (filas ses)))).

(** [PrestamoController.obtener_prestamos_activos]: here the session is taken
    inside the [try]. *)
Definition obtener_prestamos_activos : M (list PrestamoCargado) :=
  try_except_finally
    (get_session >> query_Prestamo_activos)
    (fun e =>
       print ("Error al listar préstamos: " +:+ e) >>
       ret [])
    close_session.

(** ** controllers/libro_controller.py *)

(** Books come back with [autor] and [categoria] loaded. *)
Record LibroCargado := {
  ISBN : string;
  fila_libro : Libro.t;
  autor : option Autor.t;
  categoria : option Categoria.t
}.

Definition cargar_libro (d : BaseDatos) (fila : string * Libro.t) : LibroCargado :=
  {| ISBN := fst fila;
     fila_libro := snd fila;
     autor := tblAutores d !! Libro.IdAutor (snd fila);
     categoria := tblCategorías d !! Libro.IdCategoría (snd fila) |}.

(** [session.query(Libro).options(...).filter(criterio).all()] *)
Definition query_Libro_all (criterio : BaseDatos -> string * Libro.t -> bool) :
    M (list LibroCargado) :=
  llamar QueryLibro >>
  con_session (fun ses =>
    cargar_libro (filas ses) <$>
      List.filter (criterio (filas ses)) (map_to_list (tblLibros (filas ses)))).

Definition obtener_todos : M (list LibroCargado) :=
  try_except_finally
    (get_session >> query_Libro_all (fun _ _ => true))
    (fun e =>
       print ("Error al obtener libros: " +:+ e) >>
       ret [])
    close_session.

Definition obtener_disponibles : M (list LibroCargado) :=
  try_except_finally
    (get_session >>
     query_Libro_all (fun _ fila =>
       bool_decide (Libro.Disponible (snd fila) = Some true)))
    (fun e =>
       print ("Error al obtener libros disponibles: " +:+ e) >>
       ret [])
    close_session.

(** The attributes the class [Libro] declares in models.py. *)
Inductive atributo_Libro :=
| Libro_ISBN
| Libro_Título
| Libro_Publicación
| Libro_FechaPublicación
| Libro_IdCategoría
| Libro_IdAutor
| Libro_OtrosDetalles
| Libro_Disponible
| Libro_autor
| Libro_categoria
| Libro_prestamos.

Definition nombre_atributo_Libro (a : atributo_Libro) : string :=
  match a with
  | Libro_ISBN => "ISBN"
  | Libro_Título => "Título"
  | Libro_Publicación => "Publicación"
  | Libro_FechaPublicación => "FechaPublicación"
  | Libro_IdCategoría => "IdCategoría"
  | Libro_IdAutor => "IdAutor"
  | Libro_OtrosDetalles => "OtrosDetalles"
  | Libro_Disponible => "Disponible"
  | Libro_autor => "autor"
  | Libro_categoria => "categoria"
  | Libro_prestamos => "prestamos"
  end.

Definition atributos_Libro : list atributo_Libro :=
  [Libro_ISBN; Libro_Título; Libro_Publicación; Libro_FechaPublicación;
   Libro_IdCategoría; Libro_IdAutor; Libro_OtrosDetalles; Libro_Disponible;
   Libro_autor; Libro_categoria; Libro_prestamos].

(** The attributes the class [Autor] declares in models.py. *)
Inductive atributo_Autor :=
| Autor_IdAutor
| Autor_Nombres
| Autor_Apellidos
| Autor_Nacionalidad
| Autor_OtrosDetalles
| Autor_libros
| Autor_nombre_completo.

Definition nombre_atributo_Autor (a : atributo_Autor) : string :=
  match a with
  | Autor_IdAutor => "IdAutor"
  | Autor_Nombres => "Nombres"
  | Autor_Apellidos => "Apellidos"
  | Autor_Nacionalidad => "Nacionalidad"
  | Autor_OtrosDetalles => "OtrosDetalles"
  | Autor_libros => "libros"
  | Autor_nombre_completo => "nombre_completo"
  end.

Definition atributos_Autor : list atributo_Autor :=
  [Autor_IdAutor; Autor_Nombres; Autor_Apellidos; Autor_Nacionalidad;
   Autor_OtrosDetalles; Autor_libros; Autor_nombre_completo].

(** [Clase.nombre]: looking an attribute up by name on a class raises
    [AttributeError] when the class does not declare it. *)
Definition getattr {A} (clase : string) (nombre_de : A -> string)
    (atributos : list A) (nombre : string) : M A :=
  match List.find (fun a => String.eqb (nombre_de a) nombre) atributos with
  | Some a => ret a
  | None =>
      raise ("type object '" +:+ clase +:+ "' has no attribute '" +:+ nombre +:+ "'")
  end.

Definition getattr_Libro : string -> M atributo_Libro :=
  getattr "Libro" nombre_atributo_Libro atributos_Libro.

Definition getattr_Autor : string -> M atributo_Autor :=
  getattr "Autor" nombre_atributo_Autor atributos_Autor.

(** The character value a column has in a row; [None] for NULL and for the
    attributes that are not character columns. *)
Definition texto_Libro (a : atributo_Libro) (fila : string * Libro.t) : option string :=
  match a with
  | Libro_ISBN => Some (fst fila)
  | Libro_Título => Some (Libro.Título (snd fila))
  | Libro_Publicación => Some (Libro.Publicación (snd fila))
  | Libro_OtrosDetalles => Libro.OtrosDetalles (snd fila)
  | _ => None
  end.

Definition texto_Autor (a : atributo_Autor) (fila : Autor.t) : option string :=
  match a with
  | Autor_Nombres => Some (Autor.Nombres fila)
  | Autor_Apellidos => Some (Autor.Apellidos fila)
  | Autor_Nacionalidad => Some (Autor.Nacionalidad fila)
  | Autor_OtrosDetalles => Autor.OtrosDetalles fila
  | _ => None
  end.

(** [columna.like(patron)] on one row: never true on NULL. *)
Definition columna_like (E : Entorno) (valor : option string) (patron : string) : bool :=
  match valor with
  | Some v => like E v patron
  | None => false
  end.

(** The rows of [.join(Autor).filter(or_(...))]: the join keeps the books whose
    author row exists. *)
Definition criterio_buscar (E : Entorno) (c1 c2 : atributo_Libro)
    (c3 c4 : atributo_Autor) (patron : string)
    (d : BaseDatos) (fila : string * Libro.t) : bool :=
  match tblAutores d !! Libro.IdAutor (snd fila) with
  | None => false
  | Some a =>
      columna_like E (texto_Libro c1 fila) patron
      || columna_like E (texto_Libro c2 fila) patron
      || columna_like E (texto_Autor c3 a) patron
      || columna_like E (texto_Autor c4 a) patron
  end.

(** [LibroController.buscar].  The filter names [Libro.Titulo], [Libro.ISBN],
    [Autor.Nombres] and [Autor.Apellidos]; the attributes are looked up while
    the query is built, before anything is sent to the store. *)
Definition buscar (termino_busqueda : string) : M (list LibroCargado) :=
  try_except_finally
    (get_session >>
     let patron := "%" +:+ termino_busqueda +:+ "%" in
     let* c1 := getattr_Libro "Titulo" in
     let* c2 := getattr_Libro "ISBN" in
     let* c3 := getattr_Autor "Nombres" in
     let* c4 := getattr_Autor "Apellidos" in
     fun E s => query_Libro_all (criterio_buscar E c1 c2 c3 c4 patron) E s)
    (fun e =>
       print ("Error en la búsqueda: " +:+ e) >>
       ret [])
    close_session.

(** ** The ledger invariant *)

(** Loan [id] is open and references the book [isbn]. *)
Definition abierto_sobre (d : BaseDatos) (isbn : string) (id : Z) : Prop :=
  exists p, tblPrestamos d !! id = Some p
            /\ Prestamo.ISBN p = isbn /\ Prestamo.abierto p.

(** For every book: its flag is false exactly when an open loan references it,
    and at most one open loan references it. *)
Definition invariante (d : BaseDatos) : Prop :=
  forall isbn l, tblLibros d !! isbn = Some l ->
    (Libro.Disponible l = Some false <-> exists id, abierto_sobre d isbn id)
    /\ (forall id1 id2, abierto_sobre d isbn id1 -> abierto_sobre d isbn id2 -> id1 = id2).

(** ** What a committed loan and a committed return leave in the store *)

(** The object [crear_prestamo] builds. *)
Definition nuevo_prestamo (isbn : string) (usuario_id : Z) (t1 t2 : datetime) : Prestamo.t :=
  {| Prestamo.IdUsuario := usuario_id; Prestamo.ISBN := isbn;
     Prestamo.FechaPréstamo := Some t1;
     Prestamo.FechaVencimiento := t2 + timedelta 14;
     Prestamo.FechaDevolución := None; Prestamo.MultaPagar := None;
     Prestamo.OtrosDetalles := None |}.

(** The committed rows once a loan of [isbn] to [usuario_id] has gone through. *)
Definition tras_prestamo (isbn : string) (usuario_id : Z) (t1 t2 : datetime)
    (d : BaseDatos) : BaseDatos :=
  insertar (nuevo_prestamo isbn usuario_id t1 t2)
    (con_tblLibros (alter (Libro.con_Disponible (Some false)) isbn (tblLibros d)) d).

(** The committed rows once loan [id], whose row was [p], has been returned at [t]. *)
Definition tras_devolucion (id : Z) (p : Prestamo.t) (t : datetime)
    (d : BaseDatos) : BaseDatos :=
  let d1 :=
    con_tblPrestamos
      (alter (Prestamo.con_FechaDevolución (Some t)) id (tblPrestamos d)) d in
  match tblLibros d !! Prestamo.ISBN p with
  | Some _ =>
      con_tblLibros
        (alter (Libro.con_Disponible (Some true)) (Prestamo.ISBN p) (tblLibros d1)) d1
  | None => d1
  end.

(** ** The loan service as a machine *)

(** The requests the loan service takes. *)
Inductive orden :=
| Prestar (isbn : string) (usuario_id : Z)
| Devolver (id_prestamo : Z)
| ListarActivos.

(** The state one request leaves behind, whatever it answered. *)
Definition atender (E : Entorno) (o : orden) (s : Estado) : Estado :=
  match o with
  | Prestar isbn usuario_id => snd (crear_prestamo isbn usuario_id E s)
  | Devolver id_prestamo => snd (devolver_libro id_prestamo E s)
  | ListarActivos => snd (obtener_prestamos_activos E s)
  end.

(** Requests served one after the other. *)
Definition atender_todas (E : Entorno) (os : list orden) (s : Estado) : Estado :=
  foldl (fun s o => atender E o s) s os.

(** ** A concrete library, used to run the operations *)

(** A LIKE without collation: [%] stands for any run of bytes, [_] for one. *)
Fixpoint like_bytes (patron : list ascii) : list ascii -> bool :=
  match patron with
  | [] => fun valor => match valor with [] => true | _ => false end
  | c :: resto =>
      if Ascii.eqb c "%"%char then
        fix desde (valor : list ascii) : bool :=
          like_bytes resto valor
          || match valor with
             | [] => false
             | _ :: cola => desde cola
             end
      else
        fun valor =>
          match valor with
          | [] => false
          | x :: cola => (Ascii.eqb c "_"%char || Ascii.eqb c x) && like_bytes resto cola
          end
  end.

Definition like_simple (valor patron : string) : bool :=
  like_bytes (list_ascii_of_string patron) (list_ascii_of_string valor).

(** No call into the persistence layer raises. *)
Definition sin_fallos (E : Entorno) : Prop := forall c, falla E c = None.

(** An environment where nothing raises and every clock reading is one
    microsecond after the one before. *)
Definition entorno_normal : Entorno :=
  {| falla := fun _ => None; ahora := fun n => Z.of_nat n; like := like_simple |}.

Definition garcia_marquez : Autor.t :=
  Autor.Build "Gabriel" "García Márquez" "Colombia" None.

Definition cien_años : Libro.t :=
  Libro.Build "Cien años de soledad" "Sudamericana" 19670530 1 1 None (Some true).

Definition ana : Usuario.t :=
  Usuario.Build "Ana" "Pérez" None None (Some true).

Definition luis_inactivo : Usuario.t :=
  Usuario.Build "Luis" "Mora" None None (Some false).

Definition biblioteca : BaseDatos :=
  {| tblAutores := {[ 1 := garcia_marquez ]};
     tblCategorías := {[ 1 := Categoria.Build "Novela" None ]};
     tblLibros := {[ "978-0001" := cien_años ]};
     tblUsuarios := <[ 7 := ana ]> {[ 8 := luis_inactivo ]};
     tblPrestamos := ∅ |}.

(** A controller that holds no session, over the given rows. *)
Definition estado_inicial (d : BaseDatos) : Estado :=
  {| self_session := None; db := d; lecturas := 0; stdout := [] |}.

(** The state after Ana has borrowed the book, and the call that leads there. *)
Definition prestamo_de_ana : Res (bool * string) * Estado :=
  crear_prestamo "978-0001" 7 entorno_normal (estado_inicial biblioteca).

Definition biblioteca_prestada : Estado := snd prestamo_de_ana.

(** The users' table cannot be queried at all. *)
Definition entorno_sin_usuarios : Entorno :=
  {| falla := fun c => match c with
                       | QueryUsuario => Some "Invalid object name 'tblUsuarios'."
                       | _ => None
                       end;
     ahora := fun n => Z.of_nat n;
     like := like_simple |}.

(** The store accepts the queries and refuses every commit. *)
Definition entorno_sin_commit : Entorno :=
  {| falla := fun c => match c with
                       | Commit => Some "deadlock victim"
                       | _ => None
                       end;
     ahora := fun n => Z.of_nat n;
     like := like_simple |}.

(** No session can be opened. *)
Definition entorno_sin_sesion : Entorno :=
  {| falla := fun c => match c with
                       | GetSession => Some "could not open a session"
                       | _ => None
                       end;
     ahora := fun n => Z.of_nat n;
     like := like_simple |}.

(** The books and the loans cannot be queried; the session opens and closes. *)
Definition entorno_sin_consultas : Entorno :=
  {| falla := fun c => match c with
                       | QueryLibro | QueryPrestamo => Some "login timeout expired"
                       | _ => None
                       end;
     ahora := fun n => Z.of_nat n;
     like := like_simple |}.

(** The connection is lost after the session was opened: whatever then talks
    to the store raises. *)
Definition entorno_conexion_perdida : Entorno :=
  {| falla := fun c => match c with
                       | GetSession => None
                       | _ => Some "connection lost"
                       end;
     ahora := fun n => Z.of_nat n;
     like := like_simple |}.

(** [aguja] occurs in [s]. *)
Definition contiene (s aguja : string) : Prop :=
  exists antes despues, s = antes +:+ aguja +:+ despues.

(** ** controllers/libro_controller.py: lookup by key *)

(** [session.query(Libro).options(...).filter(Libro.ISBN == libro_id).first()] *)
Definition query_Libro_por_id (libro_id : string) : M (option LibroCargado) :=
  llamar QueryLibro >>
  con_session (fun ses =>
    (fun fila => cargar_libro (filas ses) (libro_id, fila)) <$>
      tblLibros (filas ses) !! libro_id).

(** [LibroController.obtener_por_id] *)
Definition obtener_por_id (libro_id : string) : M (option LibroCargado) :=
  try_except_finally
    (get_session >> query_Libro_por_id libro_id)
    (fun e =>
       print ("Error al obtener libro: " +:+ e) >>
       ret None)
    close_session.

(** ** controllers/usuario_controller.py *)

Definition con_tblUsuarios (v : gmap Z Usuario.t) (d : BaseDatos) : BaseDatos :=
  {| tblAutores := tblAutores d; tblCategorías := tblCategorías d;
     tblLibros := tblLibros d; tblUsuarios := v;
     tblPrestamos := tblPrestamos d |}.

(** [IdUsuario] is [autoincrement] as well. *)
Definition siguiente_id_usuario (m : gmap Z Usuario.t) : Z :=
  1 + foldr Z.max 0 (elements (dom m)).

(** [session.add(u)] for a user: the pending row is kept among the rows the
    session sees, under the key its INSERT will generate; it reaches the store
    with the next commit and is dropped by a rollback. *)
Definition session_add_usuario (u : Usuario.t) : M unit :=
  modificar_session (fun ses =>
    {| filas := con_tblUsuarios
                  (<[siguiente_id_usuario (tblUsuarios (filas ses)) := u]>
                     (tblUsuarios (filas ses)))
                  (filas ses);
       nuevos := nuevos ses |}).

(** Reading the local name [session] in a handler.  In
    [UsuarioController.crear] the name is assigned inside the [try], by
    [session = self.get_session()], so it is bound exactly when [get_session]
    has returned, which is exactly when [self.session] is set. *)
Definition session_local : M unit :=
  fun _ s =>
    match self_session s with
    | Some _ => (Ok tt, s)
    | None =>
        (Raise "cannot access local variable 'session' where it is not associated with a value",
         s)
    end.

Module UsuarioController.

(** [session.query(Usuario).all()] *)
Definition query_Usuario_all : M (list (Z * Usuario.t)) :=
  llamar QueryUsuario >>
  con_session (fun ses => map_to_list (tblUsuarios (filas ses))).

Definition obtener_todos : M (list (Z * Usuario.t)) :=
  try_except_finally
    (get_session >> query_Usuario_all)
    (fun e =>
       print ("Error al obtener usuarios: " +:+ e) >>
       ret [])
    close_session.

Definition buscar_por_id (usuario_id : Z) : M (option Usuario.t) :=
  try_except_finally
    (get_session >> query_Usuario_first usuario_id)
    (fun e =>
       print ("Error al obtener usuario: " +:+ e) >>
       ret None)
    close_session.

(** [crear]: unlike the loan operations it takes the session inside the
    [try], and its handler still calls [session.rollback()]. *)
Definition crear (nombre apellido : string) (email : option string) :
    M (bool * string) :=
  try_except_finally
    (get_session >>
     let nuevo_usuario :=
       {| Usuario.Nombres := nombre;
          Usuario.Apellidos := apellido;
          Usuario.Direccion := None;
          Usuario.CorreoElectronico := email;
          Usuario.UsuarioActivo := Some true |} in
     session_add_usuario nuevo_usuario >>
     session_commit >>
     ret (true, "Usuario " +:+ nombre +:+ " " +:+ apellido +:+ " creado con éxito."))
    (fun e =>
       session_local >>
       session_rollback >>
       ret (false, "Error al crear usuario: " +:+ e))
    close_session.

End UsuarioController.

(** ** Properties of actions *)

(** An action that never changes the committed rows. *)
Definition conserva_db {A} (m : M A) : Prop :=
  forall E s, db (snd (m E s)) = db s.


(** The book as [cargar_libro] presents it. *)
Definition libro_cargado (d : BaseDatos) (isbn : string) (fila : Libro.t) : LibroCargado :=
  {| ISBN := isbn; fila_libro := fila;
     autor := tblAutores d !! Libro.IdAutor fila;
     categoria := tblCategorías d !! Libro.IdCategoría fila |}.

(** ** The three controllers as one machine *)






(** ** Python text, for the console *)

(** Text is kept in UTF-8: a character is a lead byte together with the
    continuation bytes (of the form 10xxxxxx) that follow it. *)
Definition es_continuacion (c : ascii) : bool :=
  match c with
  | Ascii _ _ _ _ _ _ b6 b7 => b7 && negb b6
  end.

(** [len(s)]: the number of characters. *)
Fixpoint len (s : string) : nat :=
  match s with
  | EmptyString => 0
  | String c resto => (if es_continuacion c then 0 else 1) + len resto
  end.

(** [s[:n]]: the first [n] characters. *)
Fixpoint hasta (n : nat) (s : string) : string :=
  match s with
  | EmptyString => EmptyString
  | String c resto =>
      if es_continuacion c then String c (hasta n resto)
      else match n with
           | O => EmptyString
           | S m => String c (hasta m resto)
           end
  end.

(** [c * n] *)
Fixpoint repetir (c : string) (n : nat) : string :=
  match n with
  | O => EmptyString
  | S m => c +:+ repetir c m
  end.

(** The format [{s:<ancho}]: padded with spaces on the right, never cut. *)
Definition ljust (ancho : nat) (s : string) : string :=
  s +:+ repetir " " (ancho - len s).

(** The line feed written as [\n] in the source. *)
Definition nl : string := String (ascii_of_nat 10) EmptyString.

(** ** The console: what is typed and what the program does with it *)

Record Consola := {
  stdin : list string;
  mundo : Estado
}.

(** How a piece of the console program ends: it returns, it leaves through
    [sys.exit()], or an exception comes out of it. *)
Inductive Fin (A : Type) :=
| Devuelve (a : A)
| SystemExit
| Lanza (e : string).
Arguments Devuelve {A} a.
Arguments SystemExit {A}.
Arguments Lanza {A} e.

Definition MC (A : Type) : Type := Entorno -> Consola -> Fin A * Consola.

Definition retc {A} (a : A) : MC A := fun _ c => (Devuelve a, c).

Definition bindc {A B} (m : MC A) (k : A -> MC B) : MC B :=
  fun E c =>
    match m E c with
    | (Devuelve a, c1) => k a E c1
    | (SystemExit, c1) => (SystemExit, c1)
    | (Lanza e, c1) => (Lanza e, c1)
    end.

Notation "'let+' x ':=' m 'in' k" := (bindc m (fun x => k))
  (at level 10, x name, m at level 100, k at level 200).
Notation "m '>>>' k" := (bindc m (fun _ => k))
  (at level 90, right associativity).

(** A controller call made from the console. *)
Definition elevar {A} (m : M A) : MC A :=
  fun E c =>
    match m E (mundo c) with
    | (Ok a, s) => (Devuelve a, {| stdin := stdin c; mundo := s |})
    | (Raise e, s) => (Lanza e, {| stdin := stdin c; mundo := s |})
    end.

(** [print(linea)] from the console. *)
Definition imprimir (linea : string) : MC unit := elevar (print linea).

(** [input(prompt)]: the prompt is written, then a line is read; at the end
    of the input [EOFError] is raised. *)
Definition input (prompt : string) : MC string :=
  imprimir prompt >>>
  fun _ c =>
    match stdin c with
    | [] => (Lanza "EOF when reading a line", c)
    | linea :: resto => (Devuelve linea, {| stdin := resto; mundo := mundo c |})
    end.

(** [sys.exit()] *)
Definition sys_exit {A} : MC A := fun _ c => (SystemExit, c).

(** ** views/console_view.py *)

Module ConsoleView.

Definition mostrar_menu_principal : MC string :=
  imprimir (nl +:+ repetir "=" 50) >>>
  imprimir "   SISTEMA DE GESTIÓN DE BIBLIOTECA" >>>
  imprimir (repetir "=" 50) >>>
  imprimir "1. Gestión de Libros" >>>
  imprimir "2. Salir" >>>
  imprimir (repetir "-" 50) >>>
  input "Seleccione una opción: ".

Definition mostrar_menu_libros : MC string :=
  imprimir (nl +:+ repetir "-" 40) >>>
  imprimir "   GESTIÓN DE LIBROS" >>>
  imprimir (repetir "-" 40) >>>
  imprimir "1. Listar todos los libros" >>>
  imprimir "2. Buscar Libro" >>>
  imprimir "3. Ver libros disponibles" >>>
  imprimir "4. Volver al menú principal" >>>
  imprimir (repetir "-" 40) >>>
  input "Seleccione una opción: ".

(** The line of the table for one book. *)
Definition fila (libro : LibroCargado) : string :=
  let cat_desc :=
    match categoria libro with
    | Some c => Categoria.Descripción c
    | None => "N/A"
    end in
  let autor_nombre :=
    match autor libro with
    | Some a => Autor.nombre_completo a
    | None => "N/A"
    end in
  ljust 15 (ISBN libro) +:+ " " +:+
  ljust 35 (hasta 34 (Libro.Título (fila_libro libro))) +:+ " " +:+
  ljust 25 (hasta 24 autor_nombre) +:+ " " +:+
  ljust 15 (hasta 14 cat_desc).

(** [for libro in libros: print(...)] *)
Fixpoint imprimir_filas (libros : list LibroCargado) : MC unit :=
  match libros with
  | [] => retc tt
  | libro :: resto => imprimir (fila libro) >>> imprimir_filas resto
  end.

Definition mostrar_lista_libros (libros : list LibroCargado) : MC unit :=
  match libros with
  | [] => imprimir (nl +:+ "❌ No se encontraron libros.")
  | _ :: _ =>
      imprimir (nl +:+ repetir "=" 100) >>>
      imprimir (ljust 15 "ISBN" +:+ " " +:+ ljust 35 "TÍTULO" +:+ " " +:+
                ljust 25 "AUTOR" +:+ " " +:+ ljust 15 "CATEGORÍA") >>>
      imprimir (repetir "-" 100) >>>
      imprimir_filas libros >>>
      imprimir (repetir "=" 100)
  end.

Definition mostrar_mensaje (mensaje : string) : MC unit :=
  imprimir (nl +:+ "ℹ️  " +:+ mensaje).

Definition pausar : MC unit :=
  input (nl +:+ "Presione Enter para continuar...") >>> retc tt.

End ConsoleView.

(** ** main.py *)

Module BibliotecaApp.

(** One pass through the body of the loop of [menu_libros]; the answer says
    whether the loop goes on ([break] answers [false]). *)
Definition vuelta_menu_libros : MC bool :=
  let+ opcion := ConsoleView.mostrar_menu_libros in
  if String.eqb opcion "1" then
    let+ libros := elevar obtener_todos in
    ConsoleView.mostrar_lista_libros libros >>>
    ConsoleView.pausar >>>
    retc true
  else if String.eqb opcion "2" then
    let+ termino :=
      input (nl +:+ "Ingrese término de búsqueda (Título, Autor o ISBN): ") in
    let+ libros := elevar (buscar termino) in
    ConsoleView.mostrar_lista_libros libros >>>
    ConsoleView.pausar >>>
    retc true
  else if String.eqb opcion "3" then
    let+ libros := elevar obtener_disponibles in
    ConsoleView.mostrar_lista_libros libros >>>
    ConsoleView.pausar >>>
    retc true
  else if String.eqb opcion "4" then
    retc false
  else
    ConsoleView.mostrar_mensaje "Opción no válida." >>>
    retc true.

(** [menu_libros]: [while True] around the body, for at most [n] passes;
    [None] means that [n] passes were not enough. *)
Fixpoint menu_libros (n : nat) (E : Entorno) (c : Consola) :
    option (Fin unit * Consola) :=
  match n with
  | O => None
  | S m =>
      match vuelta_menu_libros E c with
      | (Devuelve true, c1) => menu_libros m E c1
      | (Devuelve false, c1) => Some (Devuelve tt, c1)
      | (SystemExit, c1) => Some (SystemExit, c1)
      | (Lanza e, c1) => Some (Lanza e, c1)
      end
  end.

(** [ejecutar]: the main loop, for at most [n] passes. *)
Fixpoint ejecutar (n : nat) (E : Entorno) (c : Consola) :
    option (Fin unit * Consola) :=
  match n with
  | O => None
  | S m =>
      match ConsoleView.mostrar_menu_principal E c with
      | (Devuelve opcion, c1) =>
          if String.eqb opcion "1" then
            match menu_libros m E c1 with
            | Some (Devuelve _, c2) => ejecutar m E c2
            | otro => otro
            end
          else if String.eqb opcion "2" then
            Some ((imprimir (nl +:+ "¡Hasta luego! 👋") >>> sys_exit) E c1)
          else
            match ConsoleView.mostrar_mensaje "Opción inválida, intente de nuevo."
                    E c1 with
            | (Devuelve _, c2) => ejecutar m E c2
            | (SystemExit, c2) => Some (SystemExit, c2)
            | (Lanza e, c2) => Some (Lanza e, c2)
            end
      | (SystemExit, c1) => Some (SystemExit, c1)
      | (Lanza e, c1) => Some (Lanza e, c1)
      end
  end.

End BibliotecaApp.

(** A console at which [lineas] will be typed, over the given rows. *)
Definition consola_inicial (lineas : list string) (d : BaseDatos) : Consola :=
  {| stdin := lineas; mundo := estado_inicial d |}.

(** A piece of the console program that writes nothing to the store and
    types nothing into the input. *)
Definition quieto {A} (m : MC A) : Prop :=
  forall E c,
    db (mundo (snd (m E c))) = db (mundo c)
    /\ (length (stdin (snd (m E c))) <= length (stdin c))%nat.

(** A piece of the console program that, when it returns, has read at least
    one line. *)
Definition consume {A} (m : MC A) : Prop :=
  forall E c a c1,
    m E c = (Devuelve a, c1) ->
    (length (stdin c1) < length (stdin c))%nat.

(** ** Generated keys *)

Lemma foldr_max_cota (x : Z) (l : list Z) : x ∈ l -> x <= foldr Z.max 0 l.
Proof.
  induction l as [|y l IH]; intros Hx.
  - by apply elem_of_nil in Hx.
  - apply elem_of_cons in Hx as [->|Hx]; simpl; [lia|].
    specialize (IH Hx). lia.
Qed.

Lemma siguiente_id_mayor (m : gmap Z Prestamo.t) (k : Z) :
  is_Some (m !! k) -> k < siguiente_id m.
Proof.
  intros Hk. unfold siguiente_id.
  assert (k <= foldr Z.max 0 (elements (dom m))); [|lia].
  apply foldr_max_cota, elem_of_elements, elem_of_dom, Hk.
Qed.

Lemma siguiente_id_libre (m : gmap Z Prestamo.t) : m !! siguiente_id m = None.
Proof.
  destruct (m !! siguiente_id m) eqn:H; [|done].
  assert (siguiente_id m < siguiente_id m) by (apply siguiente_id_mayor; eauto).
  lia.
Qed.

(** ** Running the two operations: every way out *)

Ltac desplegar :=
  cbv [crear_prestamo devolver_libro try_except_finally bind ret raise
       get_session db_get_session close_session llamar print datetime_now
       query_Libro_first query_Usuario_first query_Prestamo_first con_session
       modificar_session set_Disponible set_FechaDevolución session_add
       session_commit session_rollback con_self_session con_db
       self_session db lecturas stdout] in *.

Ltac desplegar_lecturas :=
  cbv [obtener_todos obtener_disponibles obtener_prestamos_activos buscar
       query_Libro_all query_Prestamo_activos
       try_except_finally bind ret raise
       get_session db_get_session close_session llamar print con_session
       con_self_session self_session db lecturas stdout] in *.

Ltac sin_cambio :=
  intros; repeat (case_match; simplify_eq/=); left; split; done || congruence.

(** [crear_prestamo] either leaves the store as it was and does not report
    success, or it has committed the loan together with the flag. *)
Lemma crear_prestamo_casos E s isbn usuario_id r s' :
  self_session s = None ->
  crear_prestamo isbn usuario_id E s = (r, s') ->
  (db s' = db s /\ forall m, r <> Ok (true, m))
  \/ (exists l, tblLibros (db s) !! isbn = Some l /\ Libro.Disponible l = Some true
      /\ is_Some (tblUsuarios (db s) !! usuario_id)
      /\ falla E Commit = None
      /\ db s' = tras_prestamo isbn usuario_id (ahora E (lecturas s))
                   (ahora E (S (lecturas s))) (db s)
      /\ (r = Ok (true, "Préstamo realizado exitosamente.")
          \/ exists e, r = Raise e /\ falla E Close = Some e)).
Proof.
  destruct s as [ses d n out]; simpl; intros ->.
  desplegar.
  destruct (falla E GetSession) eqn:Hg; simpl.
  { intros; simplify_eq. left; split; [done|congruence]. }
  destruct (falla E QueryLibro) eqn:Hql; simpl; [sin_cambio|].
  destruct (tblLibros d !! isbn) as [l|] eqn:Hl; simpl; [|sin_cambio].
  destruct (Libro.Disponible l) as [[|]|] eqn:Hd; simpl; [|sin_cambio..].
  destruct (falla E QueryUsuario) eqn:Hqu; simpl; [sin_cambio|].
  destruct (tblUsuarios d !! usuario_id) as [u|] eqn:Hu; simpl; [|sin_cambio].
  destruct (falla E Commit) eqn:Hc; simpl; [sin_cambio|].
  intros H. right. exists l.
  destruct (falla E Close) eqn:Hcl; simplify_eq/=; repeat split; eauto.
Qed.

(** The same for [devolver_libro]. *)
Lemma devolver_libro_casos E s id_prestamo r s' :
  self_session s = None ->
  devolver_libro id_prestamo E s = (r, s') ->
  (db s' = db s /\ forall m, r <> Ok (true, m))
  \/ (exists p, tblPrestamos (db s) !! id_prestamo = Some p
      /\ Prestamo.FechaDevolución p = None
      /\ falla E Commit = None
      /\ db s' = tras_devolucion id_prestamo p (ahora E (lecturas s)) (db s)
      /\ (r = Ok (true, "Libro devuelto correctamente. ¡Gracias!")
          \/ exists e, r = Raise e /\ falla E Close = Some e)).
Proof.
  destruct s as [ses d n out]; simpl; intros ->.
  desplegar.
  destruct (falla E GetSession) eqn:Hg; simpl.
  { intros; simplify_eq. left; split; [done|congruence]. }
  destruct (falla E QueryPrestamo) eqn:Hqp; simpl; [sin_cambio|].
  destruct (tblPrestamos d !! id_prestamo) as [p|] eqn:Hp; simpl; [|sin_cambio].
  destruct (Prestamo.FechaDevolución p) as [t|] eqn:Hf; simpl; [sin_cambio|].
  destruct (falla E QueryLibro) eqn:Hql; simpl; [sin_cambio|].
  unfold tras_devolucion.
  destruct (tblLibros d !! Prestamo.ISBN p) as [l|] eqn:Hl; simpl.
  - destruct (falla E Commit) eqn:Hc; simpl; [sin_cambio|].
    intros H. right. exists p.
    destruct (falla E Close) eqn:Hcl; simplify_eq/=;
      rewrite ?Hl; repeat split; eauto.
  - destruct (falla E Commit) eqn:Hc; simpl; [sin_cambio|].
    intros H. right. exists p.
    destruct (falla E Close) eqn:Hcl; simplify_eq/=;
      rewrite ?Hl; repeat split; eauto.
Qed.

(** ** Open loans after a committed loan or return *)

Lemma abierto_tras_prestamo d isbn usuario_id t1 t2 b id :
  abierto_sobre (tras_prestamo isbn usuario_id t1 t2 d) b id <->
  (id = siguiente_id (tblPrestamos d) /\ b = isbn) \/ abierto_sobre d b id.
Proof.
  unfold abierto_sobre, tras_prestamo, insertar; simpl.
  pose proof (siguiente_id_libre (tblPrestamos d)) as Hk.
  split.
  - intros (p & Hp & Hb & Ha).
    destruct (decide (id = siguiente_id (tblPrestamos d))) as [->|Hne].
    + rewrite lookup_insert_eq in Hp. simplify_eq/=. by left.
    + rewrite lookup_insert_ne in Hp by done. right. eauto.
  - intros [[-> ->]|(p & Hp & Hb & Ha)].
    + eexists. rewrite lookup_insert_eq. split; [done|]. by split.
    + exists p. rewrite lookup_insert_ne; [done|]. congruence.
Qed.

Lemma libros_tras_prestamo d isbn usuario_id t1 t2 b :
  tblLibros (tras_prestamo isbn usuario_id t1 t2 d) !! b =
  if decide (isbn = b)
  then Libro.con_Disponible (Some false) <$> tblLibros d !! b
  else tblLibros d !! b.
Proof.
  unfold tras_prestamo, insertar; simpl.
  rewrite lookup_alter. by case_decide; subst.
Qed.

Lemma abierto_tras_devolucion d id p t b id' :
  tblPrestamos d !! id = Some p ->
  abierto_sobre (tras_devolucion id p t d) b id' <->
  id' <> id /\ abierto_sobre d b id'.
Proof.
  intros Hp.
  assert (tblPrestamos (tras_devolucion id p t d) =
          alter (Prestamo.con_FechaDevolución (Some t)) id (tblPrestamos d)) as Ht.
  { unfold tras_devolucion. by destruct (tblLibros d !! Prestamo.ISBN p). }
  unfold abierto_sobre. rewrite Ht. split.
  - intros (q & Hq & Hb & Ha).
    destruct (decide (id' = id)) as [->|Hne].
    + rewrite lookup_alter_eq, Hp in Hq. simplify_eq/=. discriminate.
    + rewrite lookup_alter_ne in Hq by done. eauto.
  - intros (Hne & q & Hq & Hb & Ha). exists q.
    by rewrite lookup_alter_ne.
Qed.

Lemma libros_tras_devolucion d id p t b :
  tblLibros (tras_devolucion id p t d) !! b =
  if decide (Prestamo.ISBN p = b)
  then Libro.con_Disponible (Some true) <$> tblLibros d !! b
  else tblLibros d !! b.
Proof.
  unfold tras_devolucion.
  destruct (tblLibros d !! Prestamo.ISBN p) eqn:Hl; simpl.
  - rewrite lookup_alter. by case_decide; subst.
  - case_decide; [|done]. subst. by rewrite Hl.
Qed.

Lemma invariante_tras_prestamo d isbn usuario_id t1 t2 l :
  invariante d ->
  tblLibros d !! isbn = Some l -> Libro.Disponible l = Some true ->
  invariante (tras_prestamo isbn usuario_id t1 t2 d).
Proof.
  intros Hinv Hl Hd b lb Hb.
  rewrite libros_tras_prestamo in Hb.
  assert (forall id, ~ abierto_sobre d isbn id) as Hninguno.
  { intros id Hid. destruct (Hinv isbn l Hl) as [[_ H] _].
    rewrite H in Hd by eauto. discriminate. }
  case_decide as Hc.
  - subst b. rewrite Hl in Hb. simplify_eq/=. split.
    + split; [|done]. intros _. exists (siguiente_id (tblPrestamos d)).
      apply abierto_tras_prestamo. by left.
    + intros id1 id2 H1 H2.
      apply abierto_tras_prestamo in H1 as [[-> _]|H1]; [|by destruct (Hninguno id1)].
      apply abierto_tras_prestamo in H2 as [[-> _]|H2]; [|by destruct (Hninguno id2)].
      done.
  - destruct (Hinv b lb Hb) as [Hiff Huno]. split.
    + rewrite Hiff. split; intros [id Hid]; exists id.
      * apply abierto_tras_prestamo. by right.
      * apply abierto_tras_prestamo in Hid as [[_ ->]|Hid]; done.
    + intros id1 id2 H1 H2.
      apply abierto_tras_prestamo in H1 as [[_ ->]|H1]; [done|].
      apply abierto_tras_prestamo in H2 as [[_ ->]|H2]; [done|].
      eauto.
Qed.

Lemma invariante_tras_devolucion d id p t :
  invariante d ->
  tblPrestamos d !! id = Some p -> Prestamo.FechaDevolución p = None ->
  invariante (tras_devolucion id p t d).
Proof.
  intros Hinv Hp Hf b lb Hb.
  rewrite libros_tras_devolucion in Hb.
  assert (abierto_sobre d (Prestamo.ISBN p) id) as Hab by (exists p; done).
  case_decide as Hc.
  - subst b. destruct (tblLibros d !! Prestamo.ISBN p) as [l|] eqn:Hl; [|done].
    simplify_eq/=. destruct (Hinv _ l Hl) as [_ Huno]. split.
    + split; [done|]. intros [id' Hid'].
      apply (abierto_tras_devolucion d id p t) in Hid' as [Hne Hid']; [|done].
      destruct Hne. eauto.
    + intros id1 id2 H1 H2.
      apply (abierto_tras_devolucion d id p t) in H1 as [_ H1]; [|done].
      apply (abierto_tras_devolucion d id p t) in H2 as [_ H2]; [|done].
      eauto.
  - destruct (Hinv b lb Hb) as [Hiff Huno]. split.
    + rewrite Hiff. split; intros [id' Hid']; exists id'.
      * apply abierto_tras_devolucion; [done|]. split; [|done].
        intros ->. destruct Hid' as (q & Hq & Hqb & _). congruence.
      * by apply (abierto_tras_devolucion d id p t) in Hid' as [_ Hid'].
    + intros id1 id2 H1 H2.
      apply (abierto_tras_devolucion d id p t) in H1 as [_ H1]; [|done].
      apply (abierto_tras_devolucion d id p t) in H2 as [_ H2]; [|done].
      eauto.
Qed.

(** ** Running [crear_prestamo]: the four ways through the [try] block *)

(** Follow the run along the facts at hand. *)
Ltac avanzar :=
  repeat (simpl; match goal with
                 | H : _ = _ |- _ => progress rewrite H
                 end).

Section CrearPrestamo.
Variables (E : Entorno) (s : Estado) (isbn : string) (usuario_id : Z).
Hypothesis Hses : self_session s = None.
Hypothesis Hget : falla E GetSession = None.
Hypothesis Hlibro : falla E QueryLibro = None.
Hypothesis Hclose : falla E Close = None.

Lemma crear_libro_no_encontrado :
  tblLibros (db s) !! isbn = None ->
  crear_prestamo isbn usuario_id E s = (Ok (false, "Libro no encontrado."), s).
Proof using Hses Hget Hlibro Hclose.
  destruct s as [ses d n out]; simpl in *; subst ses. intros Hl.
  desplegar. by avanzar.
Qed.

Lemma crear_libro_prestado l :
  tblLibros (db s) !! isbn = Some l -> truthy (Libro.Disponible l) = false ->
  crear_prestamo isbn usuario_id E s =
    (Ok (false, "El libro '" +:+ Libro.Título l +:+ "' ya está prestado."), s).
Proof using Hses Hget Hlibro Hclose.
  destruct s as [ses d n out]; simpl in *; subst ses. intros Hl Hd.
  desplegar. by avanzar.
Qed.

Lemma crear_usuario_no_encontrado l :
  tblLibros (db s) !! isbn = Some l -> Libro.Disponible l = Some true ->
  falla E QueryUsuario = None ->
  tblUsuarios (db s) !! usuario_id = None ->
  crear_prestamo isbn usuario_id E s = (Ok (false, "Usuario no encontrado."), s).
Proof using Hses Hget Hlibro Hclose.
  destruct s as [ses d n out]; simpl in *; subst ses. intros Hl Hd Hqu Hu.
  desplegar. by avanzar.
Qed.

Lemma crear_exito l u :
  tblLibros (db s) !! isbn = Some l -> Libro.Disponible l = Some true ->
  falla E QueryUsuario = None ->
  tblUsuarios (db s) !! usuario_id = Some u ->
  falla E Commit = None ->
  crear_prestamo isbn usuario_id E s =
    (Ok (true, "Préstamo realizado exitosamente."),
     {| self_session := None;
        db := tras_prestamo isbn usuario_id (ahora E (lecturas s))
                (ahora E (S (lecturas s))) (db s);
        lecturas := S (S (lecturas s));
        stdout := stdout s |}).
Proof using Hses Hget Hlibro Hclose.
  destruct s as [ses d n out]; simpl in *; subst ses. intros Hl Hd Hqu Hu Hc.
  desplegar. by avanzar.
Qed.

End CrearPrestamo.

(** ** Running [devolver_libro] *)

Section DevolverLibro.
Variables (E : Entorno) (s : Estado) (id_prestamo : Z).
Hypothesis Hses : self_session s = None.
Hypothesis Hget : falla E GetSession = None.
Hypothesis Hprestamo : falla E QueryPrestamo = None.
Hypothesis Hclose : falla E Close = None.

Lemma devolver_no_encontrado :
  tblPrestamos (db s) !! id_prestamo = None ->
  devolver_libro id_prestamo E s = (Ok (false, "Préstamo no encontrado."), s).
Proof using Hses Hget Hprestamo Hclose.
  destruct s as [ses d n out]; simpl in *; subst ses. intros Hp.
  desplegar. by avanzar.
Qed.

Lemma devolver_ya_devuelto p :
  tblPrestamos (db s) !! id_prestamo = Some p ->
  is_Some (Prestamo.FechaDevolución p) ->
  devolver_libro id_prestamo E s = (Ok (false, "Este préstamo ya fue devuelto."), s).
Proof using Hses Hget Hprestamo Hclose.
  destruct s as [ses d n out]; simpl in *; subst ses. intros Hp [t Ht].
  desplegar. by avanzar.
Qed.

Lemma devolver_exito p :
  tblPrestamos (db s) !! id_prestamo = Some p ->
  Prestamo.FechaDevolución p = None ->
  falla E QueryLibro = None ->
  falla E Commit = None ->
  devolver_libro id_prestamo E s =
    (Ok (true, "Libro devuelto correctamente. ¡Gracias!"),
     {| self_session := None;
        db := tras_devolucion id_prestamo p (ahora E (lecturas s)) (db s);
        lecturas := S (lecturas s);
        stdout := stdout s |}).
Proof using Hses Hget Hprestamo Hclose.
  destruct s as [ses d n out]; simpl in *; subst ses. intros Hp Hf Hql Hc.
  unfold tras_devolucion. desplegar.
  destruct (tblLibros d !! Prestamo.ISBN p) eqn:Hl; by avanzar.
Qed.

End DevolverLibro.

(** ** The concrete library is consistent *)

Lemma invariante_biblioteca : invariante biblioteca.
Proof.
  assert (forall isbn id, ~ abierto_sobre biblioteca isbn id) as Hninguno.
  { intros isbn id (p & Hp & _). simpl in Hp. by rewrite lookup_empty in Hp. }
  intros isbn l Hl. simpl in Hl.
  apply lookup_singleton_Some in Hl as [<- <-]. split.
  - split; [discriminate|]. intros [id Hid]. by destruct (Hninguno _ _ Hid).
  - intros id1 id2 Hid. by destruct (Hninguno _ _ Hid).
Qed.

Lemma prestamo_de_ana_exito :
  prestamo_de_ana = (Ok (true, "Préstamo realizado exitosamente."), biblioteca_prestada).
Proof. vm_compute. reflexivity. Qed.

(** ** The loan service keeps the ledger consistent *)

Lemma invariante_crear_prestamo E s isbn usuario_id :
  self_session s = None -> invariante (db s) ->
  invariante (db (snd (crear_prestamo isbn usuario_id E s))).
Proof.
  intros Hses Hinv.
  destruct (crear_prestamo isbn usuario_id E s) as [r s'] eqn:Hrun; simpl.
  apply crear_prestamo_casos in Hrun as [[Hdb _]|(l & Hl & Hd & _ & _ & Hdb & _)];
    [by rewrite Hdb| |done].
  rewrite Hdb. by eapply invariante_tras_prestamo.
Qed.

Lemma invariante_devolver_libro E s id_prestamo :
  self_session s = None -> invariante (db s) ->
  invariante (db (snd (devolver_libro id_prestamo E s))).
Proof.
  intros Hses Hinv.
  destruct (devolver_libro id_prestamo E s) as [r s'] eqn:Hrun; simpl.
  apply devolver_libro_casos in Hrun as [[Hdb _]|(p & Hp & Hf & _ & Hdb & _)];
    [by rewrite Hdb| |done].
  rewrite Hdb. by apply invariante_tras_devolucion.
Qed.

(** Listing the open loans writes nothing. *)
Lemma obtener_prestamos_activos_db E s :
  db (snd (obtener_prestamos_activos E s)) = db s.
Proof.
  destruct s as [ses d n out]. desplegar_lecturas.
  repeat (case_match; simplify_eq/=); done.
Qed.

(** C1. With one writer, every operation of the loan service
    ([crear_prestamo], [devolver_libro], and the listing of open loans)
    preserves the ledger invariant (for every book, its flag is false exactly
    when an open loan references it, and at most one open loan references
    it): if it holds before the call it holds after, whatever the result of the
    call, also when calls into the persistence layer raise. *)
Theorem invariante_preservado (E : Entorno) (s : Estado) :
  self_session s = None ->
  invariante (db s) ->
  (forall isbn usuario_id,
     invariante (db (snd (crear_prestamo isbn usuario_id E s))))
  /\ (forall id_prestamo,
        invariante (db (snd (devolver_libro id_prestamo E s))))
  /\ invariante (db (snd (obtener_prestamos_activos E s))).
Proof.
  intros Hses Hinv. split; [|split].
  - intros isbn usuario_id. by apply invariante_crear_prestamo.
  - intros id_prestamo. by apply invariante_devolver_libro.
  - by rewrite obtener_prestamos_activos_db.
Qed.

Lemma invariante_preservado_witness :
  self_session (estado_inicial biblioteca) = None
  /\ invariante (db (estado_inicial biblioteca))
  /\ invariante (db (snd (crear_prestamo "978-0001" 7 entorno_normal
                            (estado_inicial biblioteca))))
  /\ invariante (db (snd (devolver_libro 1 entorno_conexion_perdida
                            (estado_inicial biblioteca)))).
Proof.
  pose proof (invariante_preservado entorno_normal (estado_inicial biblioteca)
                eq_refl invariante_biblioteca) as (Hc & _ & _).
  pose proof (invariante_preservado entorno_conexion_perdida
                (estado_inicial biblioteca) eq_refl invariante_biblioteca)
    as (_ & Hd & _).
  split; [reflexivity|]. split; [exact invariante_biblioteca|].
  split; [apply Hc|apply Hd].
Defined.

(** While the session can always be closed, a request leaves the controller
    without a session, so the next request starts like the first. *)
Lemma atender_cierra_sesion E o s :
  falla E Close = None -> self_session s = None ->
  self_session (atender E o s) = None.
Proof.
  destruct s as [ses d n out]; simpl; intros Hclose ->.
  destruct o as [isbn usuario_id|id_prestamo|]; simpl.
  - desplegar. repeat (case_match; simplify_eq/=); done.
  - desplegar. repeat (case_match; simplify_eq/=); done.
  - desplegar_lecturas. repeat (case_match; simplify_eq/=); done.
Qed.

(** Hence the ledger is consistent at any time: after any sequence of
    requests, whatever each of them answered, and whichever queries, commits or
    rollbacks failed on the way. *)
Lemma invariante_siempre E os s :
  falla E Close = None -> self_session s = None -> invariante (db s) ->
  self_session (atender_todas E os s) = None
  /\ invariante (db (atender_todas E os s)).
Proof.
  intros Hclose. revert s.
  induction os as [|o os IH]; intros s Hses Hinv; [done|].
  apply (IH (atender E o s)).
  - by apply atender_cierra_sesion.
  - destruct o as [isbn usuario_id|id_prestamo|]; simpl.
    + by apply invariante_crear_prestamo.
    + by apply invariante_devolver_libro.
    + by rewrite obtener_prestamos_activos_db.
Qed.

(** ** [crear_prestamo] *)

(** What a successful [crear_prestamo] implies, whatever else raises. *)
Lemma crear_prestamo_exito_inv E s isbn usuario_id m :
  self_session s = None ->
  fst (crear_prestamo isbn usuario_id E s) = Ok (true, m) ->
  exists l, tblLibros (db s) !! isbn = Some l
            /\ Libro.Disponible l = Some true
            /\ is_Some (tblUsuarios (db s) !! usuario_id)
            /\ db (snd (crear_prestamo isbn usuario_id E s))
               = tras_prestamo isbn usuario_id (ahora E (lecturas s))
                   (ahora E (S (lecturas s))) (db s).
Proof.
  intros Hses Hm.
  destruct (crear_prestamo isbn usuario_id E s) as [r s'] eqn:Hrun.
  simpl in *. subst r.
  apply crear_prestamo_casos in Hrun
    as [[_ Hno]|(l & Hl & Hd & Hu & _ & Hdb & _)]; [by destruct (Hno m)| |done].
  eauto 10.
Qed.

(** C2. While the persistence layer does not raise and the ledger is
    consistent, [crear_prestamo] reports success exactly when the book exists,
    its flag is true and the borrower exists; after a success the book's flag
    is false and exactly one open loan references the book. *)
Theorem crear_prestamo_exito_sii (E : Entorno) (s : Estado) (isbn : string)
    (usuario_id : Z) :
  self_session s = None ->
  sin_fallos E ->
  invariante (db s) ->
  ((exists m, fst (crear_prestamo isbn usuario_id E s) = Ok (true, m)) <->
   (exists l, tblLibros (db s) !! isbn = Some l /\ Libro.Disponible l = Some true)
   /\ is_Some (tblUsuarios (db s) !! usuario_id))
  /\ ((exists m, fst (crear_prestamo isbn usuario_id E s) = Ok (true, m)) ->
      (exists l', tblLibros (db (snd (crear_prestamo isbn usuario_id E s))) !! isbn
                  = Some l'
                  /\ Libro.Disponible l' = Some false)
      /\ (exists id,
            abierto_sobre (db (snd (crear_prestamo isbn usuario_id E s))) isbn id
            /\ forall id',
                 abierto_sobre (db (snd (crear_prestamo isbn usuario_id E s))) isbn id'
                 -> id' = id)).
Proof.
  intros Hses Hsin Hinv. split; [split|].
  - intros [m Hm].
    destruct (crear_prestamo_exito_inv _ _ _ _ _ Hses Hm) as (l & Hl & Hd & Hu & _).
    eauto.
  - intros [(l & Hl & Hd) [u Hu]].
    rewrite (crear_exito E s isbn usuario_id Hses (Hsin _) (Hsin _) (Hsin _)
               l u Hl Hd (Hsin _) Hu (Hsin _)).
    simpl. eauto.
  - intros [m Hm].
    destruct (crear_prestamo_exito_inv _ _ _ _ _ Hses Hm) as (l & Hl & Hd & Hu & Hdb).
    rewrite Hdb. split.
    + exists (Libro.con_Disponible (Some false) l).
      rewrite libros_tras_prestamo, decide_True, Hl by done. done.
    + exists (siguiente_id (tblPrestamos (db s))). split.
      * apply abierto_tras_prestamo. by left.
      * intros id' [[-> _]|Hid']%abierto_tras_prestamo; [done|].
        destruct (Hinv isbn l Hl) as [[_ H] _].
        rewrite H in Hd by eauto. discriminate.
Qed.

Lemma crear_prestamo_exito_sii_witness :
  self_session (estado_inicial biblioteca) = None
  /\ sin_fallos entorno_normal
  /\ invariante (db (estado_inicial biblioteca))
  /\ (exists m, fst (crear_prestamo "978-0001" 7 entorno_normal
                       (estado_inicial biblioteca)) = Ok (true, m))
  /\ exists l', tblLibros (db (snd (crear_prestamo "978-0001" 7 entorno_normal
                                      (estado_inicial biblioteca)))) !! "978-0001"
                = Some l'
                /\ Libro.Disponible l' = Some false.
Proof.
  pose proof (crear_prestamo_exito_sii entorno_normal (estado_inicial biblioteca)
                "978-0001" 7 eq_refl (fun c => eq_refl) invariante_biblioteca)
    as [Hsii Hpost].
  assert (exists m, fst (crear_prestamo "978-0001" 7 entorno_normal
                           (estado_inicial biblioteca)) = Ok (true, m)) as Hm.
  { apply Hsii. split; eexists; [split|]; reflexivity. }
  split; [reflexivity|]. split; [intros c; reflexivity|].
  split; [exact invariante_biblioteca|]. split; [exact Hm|].
  exact (proj1 (Hpost Hm)).
Defined.

(** C7. [crear_prestamo] checks in a fixed order and reports the first check
    that fails: the book must exist ("Libro no encontrado."), then its flag
    must be true ("... ya está prestado."), then the borrower must exist
    ("Usuario no encontrado.").  The first two answers do not depend on the
    borrower's table, nor on whether querying it would work: for a book that is
    missing or on loan the borrower is never looked up. *)
Theorem crear_prestamo_orden (E : Entorno) (s : Estado) (isbn : string)
    (usuario_id : Z) :
  self_session s = None ->
  falla E GetSession = None ->
  falla E QueryLibro = None ->
  falla E Close = None ->
  (tblLibros (db s) !! isbn = None ->
   crear_prestamo isbn usuario_id E s = (Ok (false, "Libro no encontrado."), s))
  /\ (forall l, tblLibros (db s) !! isbn = Some l ->
        Libro.Disponible l <> Some true ->
        crear_prestamo isbn usuario_id E s =
          (Ok (false, "El libro '" +:+ Libro.Título l +:+ "' ya está prestado."), s))
  /\ (forall l, tblLibros (db s) !! isbn = Some l ->
        Libro.Disponible l = Some true ->
        falla E QueryUsuario = None ->
        tblUsuarios (db s) !! usuario_id = None ->
        crear_prestamo isbn usuario_id E s =
          (Ok (false, "Usuario no encontrado."), s)).
Proof.
  intros Hses Hget Hlibro Hclose. split; [|split].
  - by apply crear_libro_no_encontrado.
  - intros l Hl Hd. apply crear_libro_prestado; try done.
    by destruct (Libro.Disponible l) as [[|]|].
  - intros l Hl Hd Hqu Hu. by eapply crear_usuario_no_encontrado.
Qed.

Lemma crear_prestamo_orden_witness :
  self_session (estado_inicial biblioteca) = None
  /\ falla entorno_sin_usuarios GetSession = None
  /\ falla entorno_sin_usuarios QueryLibro = None
  /\ falla entorno_sin_usuarios Close = None
  /\ tblLibros (db (estado_inicial biblioteca)) !! "000-0000" = None
  /\ tblUsuarios (db (estado_inicial biblioteca)) !! 99 = None
  /\ crear_prestamo "000-0000" 99 entorno_sin_usuarios (estado_inicial biblioteca)
     = (Ok (false, "Libro no encontrado."), estado_inicial biblioteca).
Proof.
  repeat (split; [reflexivity|]).
  apply (crear_prestamo_orden entorno_sin_usuarios (estado_inicial biblioteca)
           "000-0000" 99 eq_refl eq_refl eq_refl eq_refl).
  reflexivity.
Defined.

(** On the borrowed book the answer is "ya está prestado" even for a borrower
    that does not exist and a users' table that cannot be queried. *)
Lemma crear_prestamo_libro_prestado_ejemplo :
  crear_prestamo "978-0001" 99 entorno_sin_usuarios biblioteca_prestada
  = (Ok (false, "El libro 'Cien años de soledad' ya está prestado."),
     biblioteca_prestada).
Proof. vm_compute. reflexivity. Qed.

(** C8 (as amended). Whenever [crear_prestamo] succeeds, exactly one row is
    added to the ledger, under a key that was free; its loan timestamp is the
    clock reading taken for [FechaPréstamo], its due timestamp is the next
    clock reading, taken for [FechaVencimiento], plus 14 days, its return
    timestamp is null and its fee is 0. *)
Theorem crear_prestamo_fila (E : Entorno) (s s' : Estado) (isbn : string)
    (usuario_id : Z) (m : string) :
  self_session s = None ->
  crear_prestamo isbn usuario_id E s = (Ok (true, m), s') ->
  exists id,
    tblPrestamos (db s) !! id = None
    /\ tblPrestamos (db s') =
       <[id := {| Prestamo.IdUsuario := usuario_id;
                  Prestamo.ISBN := isbn;
                  Prestamo.FechaPréstamo := Some (ahora E (lecturas s));
                  Prestamo.FechaVencimiento :=
                    ahora E (S (lecturas s)) + timedelta 14;
                  Prestamo.FechaDevolución := None;
                  Prestamo.MultaPagar := Some 0;
                  Prestamo.OtrosDetalles := None |}]> (tblPrestamos (db s)).
Proof.
  intros Hses Hrun.
  apply crear_prestamo_casos in Hrun as [[_ Hno]|(l & _ & _ & _ & _ & Hdb & _)];
    [by destruct (Hno m)| |done].
  exists (siguiente_id (tblPrestamos (db s))). split.
  - apply siguiente_id_libre.
  - by rewrite Hdb.
Qed.

Lemma crear_prestamo_fila_witness :
  self_session (estado_inicial biblioteca) = None
  /\ crear_prestamo "978-0001" 7 entorno_normal (estado_inicial biblioteca)
     = (Ok (true, "Préstamo realizado exitosamente."), biblioteca_prestada)
  /\ exists id,
       tblPrestamos biblioteca !! id = None
       /\ tblPrestamos (db biblioteca_prestada) =
          <[id := {| Prestamo.IdUsuario := 7;
                     Prestamo.ISBN := "978-0001";
                     Prestamo.FechaPréstamo := Some 0;
                     Prestamo.FechaVencimiento := 1 + timedelta 14;
                     Prestamo.FechaDevolución := None;
                     Prestamo.MultaPagar := Some 0;
                     Prestamo.OtrosDetalles := None |}]> ∅.
Proof.
  split; [reflexivity|]. split; [exact prestamo_de_ana_exito|].
  exact (crear_prestamo_fila entorno_normal (estado_inicial biblioteca)
           biblioteca_prestada "978-0001" 7 "Préstamo realizado exitosamente."
           eq_refl prestamo_de_ana_exito).
Defined.

(** C8 as stated fails: the two timestamps come from two readings of the
    clock.  With a clock that advances one microsecond per reading the loan is
    recorded at 0 and falls due at 1 + 14 days, so no single [now] is both the
    loan timestamp and the due timestamp less 14 days. *)
Lemma crear_prestamo_dos_lecturas :
  fst (crear_prestamo "978-0001" 7 entorno_normal (estado_inicial biblioteca))
  = Ok (true, "Préstamo realizado exitosamente.")
  /\ exists p,
       tblPrestamos (db (snd (crear_prestamo "978-0001" 7 entorno_normal
                                (estado_inicial biblioteca)))) !! 1 = Some p
       /\ tblPrestamos biblioteca !! 1 = None
       /\ ~ exists now, Prestamo.FechaPréstamo p = Some now
                        /\ Prestamo.FechaVencimiento p = now + timedelta 14.
Proof.
  split; [vm_compute; reflexivity|].
  eexists. split; [vm_compute; reflexivity|]. split; [reflexivity|].
  intros (now & Hp & Hv). simpl in *. injection Hp as <-.
  vm_compute in Hv. discriminate.
Qed.



(** ** [devolver_libro] *)

(** What a successful [devolver_libro] implies, whatever else raises. *)
Lemma devolver_libro_exito_inv E s id_prestamo m :
  self_session s = None ->
  fst (devolver_libro id_prestamo E s) = Ok (true, m) ->
  exists p, tblPrestamos (db s) !! id_prestamo = Some p
            /\ Prestamo.FechaDevolución p = None
            /\ db (snd (devolver_libro id_prestamo E s))
               = tras_devolucion id_prestamo p (ahora E (lecturas s)) (db s).
Proof.
  intros Hses Hm.
  destruct (devolver_libro id_prestamo E s) as [r s'] eqn:Hrun.
  simpl in *. subst r.
  apply devolver_libro_casos in Hrun
    as [[_ Hno]|(p & Hp & Hf & _ & Hdb & _)]; [by destruct (Hno m)| |done].
  eauto.
Qed.

Lemma prestamo_tras_devolucion d id p t :
  tblPrestamos d !! id = Some p ->
  tblPrestamos (tras_devolucion id p t d) !! id
  = Some (Prestamo.con_FechaDevolución (Some t) p).
Proof.
  intros Hp. unfold tras_devolucion.
  destruct (tblLibros d !! Prestamo.ISBN p); simpl;
    by rewrite lookup_alter_eq, Hp.
Qed.

(** C3. While the persistence layer does not raise, [devolver_libro] reports
    success exactly when the loan exists and its return timestamp is null.
    After a success the loan has a return timestamp; the book it references
    has its flag set to true if the book is still there, and if it is not, the
    loan is marked returned all the same and the books are left as they were. *)
Theorem devolver_libro_exito_sii (E : Entorno) (s : Estado) (id_prestamo : Z) :
  self_session s = None ->
  sin_fallos E ->
  ((exists m, fst (devolver_libro id_prestamo E s) = Ok (true, m)) <->
   (exists p, tblPrestamos (db s) !! id_prestamo = Some p
              /\ Prestamo.FechaDevolución p = None))
  /\ ((exists m, fst (devolver_libro id_prestamo E s) = Ok (true, m)) ->
      exists p p',
        tblPrestamos (db s) !! id_prestamo = Some p
        /\ tblPrestamos (db (snd (devolver_libro id_prestamo E s))) !! id_prestamo
           = Some p'
        /\ Prestamo.ISBN p' = Prestamo.ISBN p
        /\ is_Some (Prestamo.FechaDevolución p')
        /\ (is_Some (tblLibros (db s) !! Prestamo.ISBN p) ->
            exists l',
              tblLibros (db (snd (devolver_libro id_prestamo E s))) !! Prestamo.ISBN p
              = Some l'
              /\ Libro.Disponible l' = Some true)
        /\ (tblLibros (db s) !! Prestamo.ISBN p = None ->
            tblLibros (db (snd (devolver_libro id_prestamo E s)))
            = tblLibros (db s))).
Proof.
  intros Hses Hsin. split; [split|].
  - intros [m Hm].
    destruct (devolver_libro_exito_inv _ _ _ _ Hses Hm) as (p & Hp & Hf & _). eauto.
  - intros (p & Hp & Hf).
    rewrite (devolver_exito E s id_prestamo Hses (Hsin _) (Hsin _) (Hsin _)
               p Hp Hf (Hsin _) (Hsin _)).
    simpl. eauto.
  - intros [m Hm].
    destruct (devolver_libro_exito_inv _ _ _ _ Hses Hm) as (p & Hp & Hf & Hdb).
    exists p, (Prestamo.con_FechaDevolución (Some (ahora E (lecturas s))) p).
    rewrite Hdb. split; [done|]. split; [by apply prestamo_tras_devolucion|].
    split; [done|]. split; [by eexists|]. split.
    + intros [l Hl]. exists (Libro.con_Disponible (Some true) l).
      by rewrite libros_tras_devolucion, decide_True, Hl.
    + intros Hl. unfold tras_devolucion. by rewrite Hl.
Qed.

Lemma devolver_libro_exito_sii_witness :
  self_session biblioteca_prestada = None
  /\ sin_fallos entorno_normal
  /\ (exists m, fst (devolver_libro 1 entorno_normal biblioteca_prestada)
                = Ok (true, m))
  /\ exists p p',
       tblPrestamos (db biblioteca_prestada) !! 1 = Some p
       /\ tblPrestamos (db (snd (devolver_libro 1 entorno_normal
                                   biblioteca_prestada))) !! 1 = Some p'
       /\ Prestamo.ISBN p' = Prestamo.ISBN p
       /\ is_Some (Prestamo.FechaDevolución p')
       /\ (is_Some (tblLibros (db biblioteca_prestada) !! Prestamo.ISBN p) ->
           exists l',
             tblLibros (db (snd (devolver_libro 1 entorno_normal
                                   biblioteca_prestada))) !! Prestamo.ISBN p
             = Some l'
             /\ Libro.Disponible l' = Some true)
       /\ (tblLibros (db biblioteca_prestada) !! Prestamo.ISBN p = None ->
           tblLibros (db (snd (devolver_libro 1 entorno_normal
                                 biblioteca_prestada)))
           = tblLibros (db biblioteca_prestada)).
Proof.
  assert (self_session biblioteca_prestada = None) as Hses
    by (vm_compute; reflexivity).
  pose proof (devolver_libro_exito_sii entorno_normal biblioteca_prestada 1
                Hses (fun c => eq_refl)) as [Hsii Hpost].
  assert (exists m, fst (devolver_libro 1 entorno_normal biblioteca_prestada)
                    = Ok (true, m)) as Hm.
  { apply Hsii. eexists. split; vm_compute; reflexivity. }
  split; [exact Hses|]. split; [intros c; reflexivity|].
  split; [exact Hm|]. exact (Hpost Hm).
Defined.

(** C6. Returning the same loan twice in a row: the second call fails with
    "Este préstamo ya fue devuelto." and leaves the whole state, the book's
    flag included, as the first call left it. *)
Theorem devolver_libro_dos_veces (E : Entorno) (s : Estado) (id_prestamo : Z)
    (p : Prestamo.t) :
  self_session s = None ->
  sin_fallos E ->
  tblPrestamos (db s) !! id_prestamo = Some p ->
  devolver_libro id_prestamo E (snd (devolver_libro id_prestamo E s))
  = (Ok (false, "Este préstamo ya fue devuelto."),
     snd (devolver_libro id_prestamo E s)).
Proof.
  intros Hses Hsin Hp.
  destruct (Prestamo.FechaDevolución p) as [t|] eqn:Hf.
  - assert (is_Some (Prestamo.FechaDevolución p)) as Hya by (rewrite Hf; eauto).
    rewrite (devolver_ya_devuelto E s id_prestamo Hses
               (Hsin _) (Hsin _) (Hsin _) p Hp Hya).
    exact (devolver_ya_devuelto E s id_prestamo Hses
             (Hsin _) (Hsin _) (Hsin _) p Hp Hya).
  - rewrite (devolver_exito E s id_prestamo Hses (Hsin _) (Hsin _) (Hsin _)
               p Hp Hf (Hsin _) (Hsin _)).
    simpl. eapply devolver_ya_devuelto; try done; simpl.
    + by apply prestamo_tras_devolucion.
    + by eexists.
Qed.

Lemma devolver_libro_dos_veces_witness :
  self_session biblioteca_prestada = None
  /\ sin_fallos entorno_normal
  /\ is_Some (tblPrestamos (db biblioteca_prestada) !! 1)
  /\ fst (devolver_libro 1 entorno_normal biblioteca_prestada)
     = Ok (true, "Libro devuelto correctamente. ¡Gracias!")
  /\ devolver_libro 1 entorno_normal
       (snd (devolver_libro 1 entorno_normal biblioteca_prestada))
     = (Ok (false, "Este préstamo ya fue devuelto."),
        snd (devolver_libro 1 entorno_normal biblioteca_prestada)).
Proof.
  split; [vm_compute; reflexivity|]. split; [intros c; reflexivity|].
  split; [eexists; vm_compute; reflexivity|].
  split; [vm_compute; reflexivity|].
  eapply (devolver_libro_dos_veces entorno_normal biblioteca_prestada 1);
    [vm_compute; reflexivity|intros c; reflexivity|vm_compute; reflexivity].
Defined.

(** ** Failures of the persistence layer *)

(** With the session open, rollback and close working, [crear_prestamo] comes
    back with a pair whatever the queries and the commit do. *)
Lemma crear_prestamo_devuelve E s isbn usuario_id :
  self_session s = None ->
  falla E GetSession = None -> falla E Rollback = None -> falla E Close = None ->
  exists ok m, fst (crear_prestamo isbn usuario_id E s) = Ok (ok, m).
Proof.
  destruct s as [ses d n out]; simpl; intros -> Hget Hroll Hclose.
  desplegar. rewrite Hget; simpl.
  repeat (case_match; simplify_eq/=); eauto.
Qed.

Lemma devolver_libro_devuelve E s id_prestamo :
  self_session s = None ->
  falla E GetSession = None -> falla E Rollback = None -> falla E Close = None ->
  exists ok m, fst (devolver_libro id_prestamo E s) = Ok (ok, m).
Proof.
  destruct s as [ses d n out]; simpl; intros -> Hget Hroll Hclose.
  desplegar. rewrite Hget; simpl.
  repeat (case_match; simplify_eq/=); eauto.
Qed.

(** C5 (as amended). As long as opening the session, [rollback] and [close]
    do not themselves raise, [crear_prestamo] and [devolver_libro] return a
    (success, message) pair whatever the queries and [commit] do.  In every
    case, an escaping exception included, a result that reports failure leaves
    the store as it was, and the store never holds half of an operation: after
    [crear_prestamo] either nothing was written or the new open loan and the
    cleared flag are both there; after [devolver_libro] either nothing was
    written or the loan has its return date and the book, if it exists, has
    its flag set. *)
Theorem sin_escrituras_parciales (E : Entorno) (s : Estado) :
  self_session s = None ->
  (forall isbn usuario_id,
     (falla E GetSession = None -> falla E Rollback = None ->
      falla E Close = None ->
      exists ok m, fst (crear_prestamo isbn usuario_id E s) = Ok (ok, m))
     /\ (forall m, fst (crear_prestamo isbn usuario_id E s) = Ok (false, m) ->
           db (snd (crear_prestamo isbn usuario_id E s)) = db s)
     /\ (db (snd (crear_prestamo isbn usuario_id E s)) = db s
         \/ ((exists id,
                tblPrestamos (db s) !! id = None
                /\ abierto_sobre (db (snd (crear_prestamo isbn usuario_id E s)))
                     isbn id)
             /\ exists l',
                  tblLibros (db (snd (crear_prestamo isbn usuario_id E s))) !! isbn
                  = Some l'
                  /\ Libro.Disponible l' = Some false)))
  /\ (forall id_prestamo,
        (falla E GetSession = None -> falla E Rollback = None ->
         falla E Close = None ->
         exists ok m, fst (devolver_libro id_prestamo E s) = Ok (ok, m))
        /\ (forall m, fst (devolver_libro id_prestamo E s) = Ok (false, m) ->
              db (snd (devolver_libro id_prestamo E s)) = db s)
        /\ (db (snd (devolver_libro id_prestamo E s)) = db s
            \/ exists p',
                 tblPrestamos (db (snd (devolver_libro id_prestamo E s)))
                   !! id_prestamo = Some p'
                 /\ is_Some (Prestamo.FechaDevolución p')
                 /\ (is_Some (tblLibros (db s) !! Prestamo.ISBN p') ->
                     exists l',
                       tblLibros (db (snd (devolver_libro id_prestamo E s)))
                         !! Prestamo.ISBN p' = Some l'
                       /\ Libro.Disponible l' = Some true))).
Proof.
  intros Hses. split.
  - intros isbn usuario_id. split; [by apply crear_prestamo_devuelve|].
    destruct (crear_prestamo isbn usuario_id E s) as [r s'] eqn:Hrun.
    simpl.
    apply crear_prestamo_casos in Hrun
      as [[Hdb _]|(l & Hl & Hd & _ & _ & Hdb & Hr)]; [by eauto| |done].
    split.
    + intros m ->. destruct Hr as [?|(e & ? & _)]; discriminate.
    + right. rewrite Hdb. split.
      * exists (siguiente_id (tblPrestamos (db s))).
        split; [apply siguiente_id_libre|]. apply abierto_tras_prestamo. by left.
      * exists (Libro.con_Disponible (Some false) l).
        by rewrite libros_tras_prestamo, decide_True, Hl.
  - intros id_prestamo. split; [by apply devolver_libro_devuelve|].
    destruct (devolver_libro id_prestamo E s) as [r s'] eqn:Hrun.
    simpl.
    apply devolver_libro_casos in Hrun
      as [[Hdb _]|(p & Hp & Hf & _ & Hdb & Hr)]; [by eauto| |done].
    split.
    + intros m ->. destruct Hr as [?|(e & ? & _)]; discriminate.
    + right. rewrite Hdb.
      exists (Prestamo.con_FechaDevolución (Some (ahora E (lecturas s))) p).
      split; [by apply prestamo_tras_devolucion|]. split; [by eexists|].
      simpl. intros [l Hl]. exists (Libro.con_Disponible (Some true) l).
      by rewrite libros_tras_devolucion, decide_True, Hl.
Qed.

(** A refused commit is reported as a failure and nothing is written. *)
Lemma crear_prestamo_commit_rechazado :
  crear_prestamo "978-0001" 7 entorno_sin_commit (estado_inicial biblioteca)
  = (Ok (false, "Error al procesar préstamo: deadlock victim"),
     {| self_session := None; db := biblioteca; lecturas := 2;
        stdout := ["Error al procesar préstamo: deadlock victim"] |}).
Proof. vm_compute. reflexivity. Qed.

Lemma sin_escrituras_parciales_witness :
  self_session (estado_inicial biblioteca) = None
  /\ (exists ok m,
        fst (crear_prestamo "978-0001" 7 entorno_sin_commit
               (estado_inicial biblioteca)) = Ok (ok, m))
  /\ (forall m,
        fst (crear_prestamo "978-0001" 7 entorno_sin_commit
               (estado_inicial biblioteca)) = Ok (false, m) ->
        db (snd (crear_prestamo "978-0001" 7 entorno_sin_commit
                   (estado_inicial biblioteca)))
        = db (estado_inicial biblioteca)).
Proof.
  pose proof (sin_escrituras_parciales entorno_sin_commit
                (estado_inicial biblioteca) eq_refl) as [Hc _].
  destruct (Hc "978-0001" 7) as (Hpar & Hfallo & _).
  split; [reflexivity|]. split; [|exact Hfallo].
  apply Hpar; reflexivity.
Defined.

(** C5 as stated fails: [get_session] is called before the [try], so an
    exception raised while opening the session reaches the caller; and when the
    connection is lost, the [rollback] of the handler raises in its turn. *)
Lemma crear_y_devolver_propagan :
  fst (crear_prestamo "978-0001" 7 entorno_sin_sesion (estado_inicial biblioteca))
  = Raise "could not open a session"
  /\ fst (devolver_libro 1 entorno_sin_sesion biblioteca_prestada)
     = Raise "could not open a session"
  /\ fst (crear_prestamo "978-0001" 7 entorno_conexion_perdida
            (estado_inicial biblioteca))
     = Raise "connection lost"
  /\ fst (devolver_libro 1 entorno_conexion_perdida biblioteca_prestada)
     = Raise "connection lost".
Proof. repeat split; vm_compute; reflexivity. Qed.

(** ** The read operations *)

(** [Libro] declares [Título]; it has no attribute [Titulo]. *)
Lemma getattr_Libro_Titulo :
  getattr_Libro "Titulo" = raise "type object 'Libro' has no attribute 'Titulo'".
Proof. reflexivity. Qed.

Lemma getattr_Libro_con_tilde : getattr_Libro "Título" = ret Libro_Título.
Proof. reflexivity. Qed.

(** [buscar] never gets as far as its query: the lookup of [Libro.Titulo]
    raises inside the [try], and the handler answers with the empty list. *)
Lemma buscar_siempre_vacio E s termino_busqueda :
  fst (buscar termino_busqueda E s) = Ok []
  \/ exists e, fst (buscar termino_busqueda E s) = Raise e /\ falla E Close = Some e.
Proof.
  unfold buscar. rewrite getattr_Libro_Titulo.
  destruct s as [ses d n out]. desplegar_lecturas.
  repeat (case_match; simplify_eq/=); eauto.
Qed.

(** C9 (as amended). For [obtener_todos], [obtener_disponibles], [buscar] and
    [obtener_prestamos_activos]: if opening the session or running the query
    raises, the operation returns the empty list, provided that closing the
    session in the [finally] block does not raise as well. *)
Theorem lecturas_vacias_si_falla (E : Entorno) (s : Estado) :
  self_session s = None ->
  falla E Close = None ->
  (is_Some (falla E GetSession) \/ is_Some (falla E QueryLibro) ->
   fst (obtener_todos E s) = Ok []
   /\ fst (obtener_disponibles E s) = Ok []
   /\ forall termino_busqueda, fst (buscar termino_busqueda E s) = Ok [])
  /\ (is_Some (falla E GetSession) \/ is_Some (falla E QueryPrestamo) ->
      fst (obtener_prestamos_activos E s) = Ok []).
Proof.
  destruct s as [ses d n out]; simpl; intros -> Hclose. split.
  - intros Hfalla. split; [|split].
    + desplegar_lecturas.
      destruct Hfalla as [[e He]|[e He]];
        repeat (case_match; simplify_eq/=); eauto.
    + desplegar_lecturas.
      destruct Hfalla as [[e He]|[e He]];
        repeat (case_match; simplify_eq/=); eauto.
    + intros t.
      destruct (buscar_siempre_vacio E
                  {| self_session := None; db := d; lecturas := n; stdout := out |} t)
        as [H|(e & _ & He)]; [done|congruence].
  - intros Hfalla. desplegar_lecturas.
    destruct Hfalla as [[e He]|[e He]];
      repeat (case_match; simplify_eq/=); eauto.
Qed.

Lemma lecturas_vacias_si_falla_witness :
  self_session (estado_inicial biblioteca) = None
  /\ falla entorno_sin_consultas Close = None
  /\ is_Some (falla entorno_sin_consultas QueryLibro)
  /\ is_Some (falla entorno_sin_consultas QueryPrestamo)
  /\ fst (obtener_todos entorno_sin_consultas (estado_inicial biblioteca)) = Ok []
  /\ fst (obtener_prestamos_activos entorno_sin_consultas
            (estado_inicial biblioteca)) = Ok [].
Proof.
  assert (is_Some (falla entorno_sin_consultas QueryLibro)) as HL
    by (eexists; reflexivity).
  assert (is_Some (falla entorno_sin_consultas QueryPrestamo)) as HP
    by (eexists; reflexivity).
  pose proof (lecturas_vacias_si_falla entorno_sin_consultas
                (estado_inicial biblioteca) eq_refl eq_refl) as [Hlibros Hprestamos].
  split; [reflexivity|]. split; [reflexivity|]. split; [exact HL|].
  split; [exact HP|]. split.
  - exact (proj1 (Hlibros (or_intror HL))).
  - exact (Hprestamos (or_intror HP)).
Defined.

(** C9 as stated fails: when the connection is lost the query raises, the
    handler answers with the empty list, and then [close_session] in the
    [finally] block raises; that exception replaces the answer and reaches the
    caller. *)
Lemma lecturas_propagan_el_cierre :
  fst (obtener_todos entorno_conexion_perdida (estado_inicial biblioteca))
  = Raise "connection lost"
  /\ fst (obtener_disponibles entorno_conexion_perdida (estado_inicial biblioteca))
     = Raise "connection lost"
  /\ fst (buscar "García" entorno_conexion_perdida (estado_inicial biblioteca))
     = Raise "connection lost"
  /\ fst (obtener_prestamos_activos entorno_conexion_perdida biblioteca_prestada)
     = Raise "connection lost".
Proof. repeat split; vm_compute; reflexivity. Qed.

(** The list operations answer on the concrete library. *)
Lemma obtener_todos_biblioteca :
  fst (obtener_todos entorno_normal (estado_inicial biblioteca))
  = Ok [cargar_libro biblioteca ("978-0001", cien_años)].
Proof. vm_compute. reflexivity. Qed.

Lemma obtener_prestamos_activos_ida_y_vuelta :
  (IdPrestamo <$>
     default [] (match fst (obtener_prestamos_activos entorno_normal
                              biblioteca_prestada) with
                 | Ok l => Some l
                 | Raise _ => None
                 end)) = [1]
  /\ fst (obtener_prestamos_activos entorno_normal
            (snd (devolver_libro 1 entorno_normal biblioteca_prestada))) = Ok [].
Proof. split; vm_compute; reflexivity. Qed.

(** C4, on the code: in a library that holds a book by García Márquez, with
    nothing failing, [buscar "García"] answers with the empty list, although
    the author's last name contains the term; the lookup of [Libro.Titulo]
    raises, and the handler prints the error and returns []. *)
Theorem buscar_garcia_vacio :
  fst (buscar "García" entorno_normal (estado_inicial biblioteca)) = Ok []
  /\ stdout (snd (buscar "García" entorno_normal (estado_inicial biblioteca)))
     = ["Error en la búsqueda: type object 'Libro' has no attribute 'Titulo'"]
  /\ exists l a,
       tblLibros biblioteca !! "978-0001" = Some l
       /\ tblAutores biblioteca !! Libro.IdAutor l = Some a
       /\ contiene (Autor.Apellidos a) "García".
Proof.
  split; [vm_compute; reflexivity|]. split; [vm_compute; reflexivity|].
  exists cien_años, garcia_marquez.
  split; [reflexivity|]. split; [reflexivity|].
  exists "", " Márquez". reflexivity.
Qed.

(** ** Beyond the loan lifecycle: the other controller operations *)

(** ** Actions that leave the store alone *)

Lemma conserva_ret {A} (a : A) : conserva_db (ret a).
Proof. done. Qed.

Lemma conserva_raise {A} (e : string) : conserva_db (@raise A e).
Proof. done. Qed.

Lemma conserva_bind {A B} (m : M A) (k : A -> M B) :
  conserva_db m -> (forall a, conserva_db (k a)) -> conserva_db (bind m k).
Proof.
  intros Hm Hk E s. unfold bind. specialize (Hm E s).
  destruct (m E s) as [[a|e] s1]; simpl in *; [|done].
  by rewrite Hk.
Qed.

Lemma conserva_llamar c : conserva_db (llamar c).
Proof. intros E s. unfold llamar. by destruct (falla E c). Qed.

Lemma conserva_print linea : conserva_db (print linea).
Proof. done. Qed.

Lemma conserva_con_session {A} (f : Session -> A) : conserva_db (con_session f).
Proof. intros E s. unfold con_session. by destruct (self_session s). Qed.

Lemma conserva_get_session : conserva_db get_session.
Proof.
  intros E s. unfold get_session, db_get_session, bind, llamar.
  destruct (self_session s); [done|]. by destruct (falla E GetSession).
Qed.

Lemma conserva_close_session : conserva_db close_session.
Proof.
  intros E s. unfold close_session, bind, llamar.
  destruct (self_session s); [|done]. by destruct (falla E Close).
Qed.

Lemma conserva_try_except_finally {A} (cuerpo : M A) manejador final :
  conserva_db cuerpo -> (forall e, conserva_db (manejador e)) ->
  conserva_db final ->
  conserva_db (try_except_finally cuerpo manejador final).
Proof.
  intros Hc Hm Hf E s. unfold try_except_finally. specialize (Hc E s).
  destruct (cuerpo E s) as [[a|e] s1]; simpl in *.
  - specialize (Hf E s1). destruct (final E s1) as [[[]|e] s2]; simpl in *;
      congruence.
  - specialize (Hm e E s1). destruct (manejador e E s1) as [r s2]; simpl in *.
    specialize (Hf E s2). destruct (final E s2) as [[[]|e'] s3]; simpl in *;
      congruence.
Qed.

(** A read: open the session, run one query, answer with what the session
    shows; on any exception print and answer with a fixed value. *)
Lemma conserva_lectura {A} c (f : Session -> A) (prefijo : string) (v : A) :
  conserva_db
    (try_except_finally
       (get_session >> llamar c >> con_session f)
       (fun e => print (prefijo +:+ e) >> ret v)
       close_session).
Proof.
  apply conserva_try_except_finally.
  - apply conserva_bind; [apply conserva_get_session|intros _].
    apply conserva_bind; [apply conserva_llamar|intros _].
    apply conserva_con_session.
  - intros e. apply conserva_bind; [apply conserva_print|intros _].
    apply conserva_ret.
  - apply conserva_close_session.
Qed.

Lemma conserva_buscar termino_busqueda : conserva_db (buscar termino_busqueda).
Proof.
  unfold buscar. rewrite getattr_Libro_Titulo.
  apply conserva_try_except_finally.
  - apply conserva_bind; [apply conserva_get_session|intros _].
    intros E s. reflexivity.
  - intros e. apply conserva_bind; [apply conserva_print|intros _].
    apply conserva_ret.
  - apply conserva_close_session.
Qed.

(** X1. Whatever the persistence layer does, and whatever session the
    controller holds, no read operation changes the committed rows. *)
Theorem lecturas_no_escriben (E : Entorno) (s : Estado) :
  db (snd (obtener_todos E s)) = db s
  /\ db (snd (obtener_disponibles E s)) = db s
  /\ (forall termino_busqueda, db (snd (buscar termino_busqueda E s)) = db s)
  /\ (forall libro_id, db (snd (obtener_por_id libro_id E s)) = db s)
  /\ db (snd (obtener_prestamos_activos E s)) = db s
  /\ db (snd (UsuarioController.obtener_todos E s)) = db s
  /\ (forall usuario_id,
        db (snd (UsuarioController.buscar_por_id usuario_id E s)) = db s).
Proof.
  repeat split; intros;
    first [ apply conserva_buscar | apply conserva_lectura ].
Qed.

(** ** The session is closed on every way out *)

Lemma get_session_raise E s e s1 :
  get_session E s = (Raise e, s1) -> s1 = s /\ self_session s = None.
Proof.
  unfold get_session, db_get_session, bind, llamar.
  destruct (self_session s); [done|].
  destruct (falla E GetSession); intros; by simplify_eq/=.
Qed.

Lemma try_finally_cierra {A} (cuerpo : M A) manejador E s :
  falla E Close = None ->
  self_session (snd (try_except_finally cuerpo manejador close_session E s)) = None.
Proof.
  intros Hclose. unfold try_except_finally.
  destruct (match cuerpo E s with
            | (Ok a, s1) => (Ok a, s1)
            | (Raise e, s1) => manejador e E s1
            end) as [r s1].
  unfold close_session, bind, llamar. rewrite Hclose.
  by destruct (self_session s1) eqn:Hs.
Qed.

Lemma tomar_y_cerrar {A} (cuerpo : M A) manejador E s :
  falla E Close = None ->
  self_session
    (snd ((get_session >> try_except_finally cuerpo manejador close_session) E s))
  = None.
Proof.
  intros Hclose. unfold bind at 1.
  destruct (get_session E s) as [[[]|e] s1] eqn:Hget.
  - by apply try_finally_cierra.
  - by apply get_session_raise in Hget as [-> ?].
Qed.

(** X2. While closing the session works, every operation leaves the
    controller without a session, whatever else raised and whatever session
    it held at entry. *)
Theorem sesion_siempre_cerrada (E : Entorno) (s : Estado) :
  falla E Close = None ->
  (forall isbn usuario_id,
     self_session (snd (crear_prestamo isbn usuario_id E s)) = None)
  /\ (forall id_prestamo,
        self_session (snd (devolver_libro id_prestamo E s)) = None)
  /\ self_session (snd (obtener_prestamos_activos E s)) = None
  /\ self_session (snd (obtener_todos E s)) = None
  /\ self_session (snd (obtener_disponibles E s)) = None
  /\ (forall termino_busqueda,
        self_session (snd (buscar termino_busqueda E s)) = None)
  /\ (forall libro_id, self_session (snd (obtener_por_id libro_id E s)) = None)
  /\ self_session (snd (UsuarioController.obtener_todos E s)) = None
  /\ (forall usuario_id,
        self_session (snd (UsuarioController.buscar_por_id usuario_id E s)) = None)
  /\ (forall nombre apellido email,
        self_session (snd (UsuarioController.crear nombre apellido email E s)) = None).
Proof.
  intros Hclose. split; [|split].
  - intros. unfold crear_prestamo. by apply tomar_y_cerrar.
  - intros. unfold devolver_libro. by apply tomar_y_cerrar.
  - unfold obtener_prestamos_activos, obtener_todos, obtener_disponibles,
      buscar, obtener_por_id, UsuarioController.obtener_todos,
      UsuarioController.buscar_por_id, UsuarioController.crear.
    repeat split; intros; by apply try_finally_cierra.
Qed.

Lemma sesion_siempre_cerrada_witness :
  falla entorno_sin_commit Close = None
  /\ self_session (snd (crear_prestamo "978-0001" 7 entorno_sin_commit
                          (estado_inicial biblioteca))) = None.
Proof.
  split; [reflexivity|].
  exact (proj1 (sesion_siempre_cerrada entorno_sin_commit
                  (estado_inicial biblioteca) eq_refl) "978-0001" 7).
Defined.

(** When [close()] raises, the session stays in [self.session]. *)
Lemma sesion_queda_abierta :
  is_Some (self_session (snd (obtener_todos entorno_conexion_perdida
                                (estado_inicial biblioteca)))).
Proof. eexists. vm_compute. reflexivity. Qed.

(** ** What the reads answer *)

(** A read when nothing raises: the answer is what a session over the
    committed rows shows, and the state is as before. *)
Lemma lectura_ok {A} c (f : Session -> A) manejador E s :
  self_session s = None ->
  falla E GetSession = None -> falla E c = None -> falla E Close = None ->
  try_except_finally (get_session >> llamar c >> con_session f)
    manejador close_session E s
  = (Ok (f {| filas := db s; nuevos := [] |}), s).
Proof.
  destruct s as [ses d n out]; simpl; intros -> Hget Hc Hclose.
  cbv [try_except_finally bind get_session db_get_session llamar con_session
       close_session con_self_session self_session db lecturas stdout].
  by rewrite Hget, Hc, Hclose.
Qed.

(** A read when opening the session or the query raises: the handler prints
    and answers with its fixed value. *)
Lemma lectura_falla {A} c (f : Session -> A) (prefijo : string) (v : A) E s e :
  self_session s = None ->
  falla E Close = None ->
  falla E GetSession = Some e
  \/ (falla E GetSession = None /\ falla E c = Some e) ->
  try_except_finally (get_session >> llamar c >> con_session f)
    (fun e => print (prefijo +:+ e) >> ret v) close_session E s
  = (Ok v, {| self_session := None; db := db s; lecturas := lecturas s;
              stdout := stdout s ++ [prefijo +:+ e] |}).
Proof.
  destruct s as [ses d n out]; simpl; intros -> Hclose Hfalla.
  cbv [try_except_finally bind get_session db_get_session llamar con_session
       close_session con_self_session print ret
       self_session db lecturas stdout].
  destruct Hfalla as [Hget|[Hget Hc]].
  - by rewrite Hget.
  - by rewrite Hget, Hc, Hclose.
Qed.

Lemma filter_true {A} (l : list A) : List.filter (fun _ => true) l = l.
Proof. induction l as [|x l IH]; simpl; [done|by rewrite IH]. Qed.

Lemma filter_fmap {A B} (f : A -> B) (c : B -> bool) (l : list A) :
  List.filter c (f <$> l) = f <$> List.filter (fun a => c (f a)) l.
Proof.
  induction l as [|x l IH]; [done|].
  rewrite fmap_cons. cbn [List.filter].
  destruct (c (f x)); [rewrite fmap_cons|]; by rewrite IH.
Qed.

Lemma elem_of_filter {A} (c : A -> bool) (l : list A) (x : A) :
  x ∈ List.filter c l <-> x ∈ l /\ c x = true.
Proof. rewrite !list_elem_of_In. apply filter_In. Qed.

Lemma NoDup_fmap_filter {A B} (f : A -> B) (c : A -> bool) (l : list A) :
  NoDup (f <$> l) -> NoDup (f <$> List.filter c l).
Proof.
  induction l as [|x l IH]; [done|].
  rewrite fmap_cons. cbn [List.filter].
  intros [Hx Hl]%NoDup_cons. destruct (c x); [|by apply IH].
  rewrite fmap_cons. apply NoDup_cons. split; [|by apply IH].
  intros (y & Hy & Hin)%list_elem_of_fmap. apply elem_of_filter in Hin as [Hin _].
  apply Hx, list_elem_of_fmap. eauto.
Qed.

(** The books a query with a criterion loads. *)
Lemma elem_of_libros_cargados d (criterio : string * Libro.t -> bool) x :
  x ∈ cargar_libro d <$> List.filter criterio (map_to_list (tblLibros d)) <->
  tblLibros d !! ISBN x = Some (fila_libro x)
  /\ criterio (ISBN x, fila_libro x) = true
  /\ x = libro_cargado d (ISBN x) (fila_libro x).
Proof.
  rewrite list_elem_of_fmap. split.
  - intros ([isbn fila] & -> & [Hin Hc]%elem_of_filter).
    apply elem_of_map_to_list in Hin. done.
  - intros (Hl & Hc & Hx). exists (ISBN x, fila_libro x). split; [done|].
    apply elem_of_filter. split; [|done]. by apply elem_of_map_to_list.
Qed.

Lemma NoDup_libros_cargados d (criterio : string * Libro.t -> bool) :
  NoDup (ISBN <$> (cargar_libro d <$>
                     List.filter criterio (map_to_list (tblLibros d)))).
Proof.
  rewrite <- list_fmap_compose.
  apply (NoDup_fmap_filter (ISBN ∘ cargar_libro d)).
  apply (NoDup_fst_map_to_list (tblLibros d)).
Qed.

Section Lecturas.
Variables (E : Entorno) (s : Estado).
Hypothesis Hses : self_session s = None.
Hypothesis Hget : falla E GetSession = None.
Hypothesis Hclose : falla E Close = None.

Lemma obtener_todos_ok :
  falla E QueryLibro = None ->
  obtener_todos E s
  = (Ok (cargar_libro (db s) <$> map_to_list (tblLibros (db s))), s).
Proof using Hses Hget Hclose.
  intros Hq. unfold obtener_todos, query_Libro_all.
  rewrite lectura_ok by done. simpl. by rewrite filter_true.
Qed.

Lemma obtener_disponibles_ok :
  falla E QueryLibro = None ->
  obtener_disponibles E s
  = (Ok (cargar_libro (db s) <$>
           List.filter (fun fila => bool_decide (Libro.Disponible (snd fila) = Some true))
             (map_to_list (tblLibros (db s)))), s).
Proof using Hses Hget Hclose.
  intros Hq. unfold obtener_disponibles, query_Libro_all.
  by rewrite lectura_ok.
Qed.

Lemma obtener_por_id_ok libro_id :
  falla E QueryLibro = None ->
  obtener_por_id libro_id E s
  = (Ok (libro_cargado (db s) libro_id <$> tblLibros (db s) !! libro_id), s).
Proof using Hses Hget Hclose.
  intros Hq. unfold obtener_por_id, query_Libro_por_id.
  by rewrite lectura_ok.
Qed.

Lemma obtener_prestamos_activos_ok :
  falla E QueryPrestamo = None ->
  obtener_prestamos_activos E s
  = (Ok (cargar_prestamo (db s) <$>
           List.filter (fun fila => bool_decide (Prestamo.FechaDevolución (snd fila) = None))
             (map_to_list (tblPrestamos (db s)))), s).
Proof using Hses Hget Hclose.
  intros Hq. unfold obtener_prestamos_activos, query_Prestamo_activos.
  by rewrite lectura_ok.
Qed.

Lemma usuarios_obtener_todos_ok :
  falla E QueryUsuario = None ->
  UsuarioController.obtener_todos E s
  = (Ok (map_to_list (tblUsuarios (db s))), s).
Proof using Hses Hget Hclose.
  intros Hq.
  unfold UsuarioController.obtener_todos, UsuarioController.query_Usuario_all.
  by rewrite lectura_ok.
Qed.

Lemma usuarios_buscar_por_id_ok usuario_id :
  falla E QueryUsuario = None ->
  UsuarioController.buscar_por_id usuario_id E s
  = (Ok (tblUsuarios (db s) !! usuario_id), s).
Proof using Hses Hget Hclose.
  intros Hq. unfold UsuarioController.buscar_por_id, query_Usuario_first.
  by rewrite lectura_ok.
Qed.

End Lecturas.

(** X3. When nothing raises, [obtener_todos] lists every book of the catalog
    exactly once, each with the author and the category its row points to
    ([None] where that row is missing), and leaves the state as it was. *)
Theorem obtener_todos_completo (E : Entorno) (s : Estado) :
  self_session s = None ->
  falla E GetSession = None -> falla E QueryLibro = None ->
  falla E Close = None ->
  exists libros,
    obtener_todos E s = (Ok libros, s)
    /\ (forall x, x ∈ libros <->
          tblLibros (db s) !! ISBN x = Some (fila_libro x)
          /\ autor x = tblAutores (db s) !! Libro.IdAutor (fila_libro x)
          /\ categoria x = tblCategorías (db s) !! Libro.IdCategoría (fila_libro x))
    /\ NoDup (ISBN <$> libros)
    /\ length libros = size (tblLibros (db s)).
Proof.
  intros Hses Hget Hq Hclose. eexists. split; [by apply obtener_todos_ok|].
  split; [|split].
  - intros x. rewrite <- (filter_true (map_to_list _)).
    rewrite elem_of_libros_cargados. split.
    + intros (Hl & _ & ->). done.
    + intros (Hl & Ha & Hc). split; [done|]. split; [done|].
      destruct x; simpl in *. by subst.
  - rewrite <- (filter_true (map_to_list _)). apply NoDup_libros_cargados.
  - by rewrite length_fmap, length_map_to_list.
Qed.

Lemma obtener_todos_completo_witness :
  self_session (estado_inicial biblioteca) = None
  /\ falla entorno_normal GetSession = None
  /\ falla entorno_normal QueryLibro = None
  /\ falla entorno_normal Close = None
  /\ exists libros,
       obtener_todos entorno_normal (estado_inicial biblioteca)
       = (Ok libros, estado_inicial biblioteca)
       /\ length libros = size (tblLibros biblioteca).
Proof.
  repeat (split; [reflexivity|]).
  destruct (obtener_todos_completo entorno_normal (estado_inicial biblioteca)
              eq_refl eq_refl eq_refl eq_refl) as (libros & Hrun & _ & _ & Hlen).
  exists libros. split; [exact Hrun|exact Hlen].
Defined.

(** X4. [obtener_disponibles] answers with exactly those books of
    [obtener_todos] whose flag is true; a book whose flag is NULL is not
    offered. *)
Theorem obtener_disponibles_filtra (E : Entorno) (s : Estado) :
  self_session s = None ->
  falla E GetSession = None -> falla E QueryLibro = None ->
  falla E Close = None ->
  exists todos disponibles,
    fst (obtener_todos E s) = Ok todos
    /\ fst (obtener_disponibles E s) = Ok disponibles
    /\ disponibles
       = List.filter
           (fun x => bool_decide (Libro.Disponible (fila_libro x) = Some true))
           todos
    /\ forall x, x ∈ disponibles <->
         x ∈ todos /\ Libro.Disponible (fila_libro x) = Some true.
Proof.
  intros Hses Hget Hq Hclose.
  rewrite obtener_todos_ok, obtener_disponibles_ok by done. simpl.
  do 2 eexists. split; [done|]. split; [done|].
  assert (cargar_libro (db s) <$>
            List.filter (fun fila => bool_decide (Libro.Disponible fila.2 = Some true))
              (map_to_list (tblLibros (db s)))
          = List.filter
              (fun x => bool_decide (Libro.Disponible (fila_libro x) = Some true))
              (cargar_libro (db s) <$> map_to_list (tblLibros (db s)))) as Heq
    by (by rewrite filter_fmap).
  split; [done|].
  intros x. rewrite Heq, elem_of_filter, bool_decide_eq_true. done.
Qed.

Lemma obtener_disponibles_filtra_witness :
  self_session biblioteca_prestada = None
  /\ falla entorno_normal GetSession = None
  /\ falla entorno_normal QueryLibro = None
  /\ falla entorno_normal Close = None
  /\ exists todos disponibles,
       fst (obtener_todos entorno_normal biblioteca_prestada) = Ok todos
       /\ fst (obtener_disponibles entorno_normal biblioteca_prestada)
          = Ok disponibles
       /\ disponibles
          = List.filter
              (fun x => bool_decide (Libro.Disponible (fila_libro x) = Some true))
              todos.
Proof.
  assert (self_session biblioteca_prestada = None) as Hses
    by (vm_compute; reflexivity).
  split; [exact Hses|]. repeat (split; [reflexivity|]).
  destruct (obtener_disponibles_filtra entorno_normal biblioteca_prestada
              Hses eq_refl eq_refl eq_refl) as (todos & disp & H1 & H2 & H3 & _).
  exists todos, disp. split; [exact H1|]. split; [exact H2|exact H3].
Defined.

(** X5. When nothing raises, [obtener_por_id] agrees with [obtener_todos]:
    it answers with a book exactly when that book is the entry of the list
    under the ISBN asked for, and with [None] exactly when the catalog has no
    such ISBN; the state is left as it was. *)
Theorem obtener_por_id_coincide (E : Entorno) (s : Estado) (libro_id : string) :
  self_session s = None ->
  falla E GetSession = None -> falla E QueryLibro = None ->
  falla E Close = None ->
  exists todos r,
    fst (obtener_todos E s) = Ok todos
    /\ obtener_por_id libro_id E s = (Ok r, s)
    /\ (r = None <-> tblLibros (db s) !! libro_id = None)
    /\ forall x, r = Some x <-> x ∈ todos /\ ISBN x = libro_id.
Proof.
  intros Hses Hget Hq Hclose.
  rewrite obtener_todos_ok, obtener_por_id_ok by done. simpl.
  do 2 eexists. split; [done|]. split; [done|]. split.
  - by rewrite fmap_None.
  - intros x. rewrite <- (filter_true (map_to_list _)).
    rewrite elem_of_libros_cargados, fmap_Some. split.
    + intros (fila & Hl & ->). simpl. done.
    + intros [(Hl & _ & Hx) <-]. eauto.
Qed.

Lemma obtener_por_id_coincide_witness :
  self_session (estado_inicial biblioteca) = None
  /\ falla entorno_normal GetSession = None
  /\ falla entorno_normal QueryLibro = None
  /\ falla entorno_normal Close = None
  /\ exists todos r,
       fst (obtener_todos entorno_normal (estado_inicial biblioteca)) = Ok todos
       /\ obtener_por_id "000-0000" entorno_normal (estado_inicial biblioteca)
          = (Ok r, estado_inicial biblioteca)
       /\ (r = None <-> tblLibros biblioteca !! "000-0000" = None).
Proof.
  repeat (split; [reflexivity|]).
  destruct (obtener_por_id_coincide entorno_normal (estado_inicial biblioteca)
              "000-0000" eq_refl eq_refl eq_refl eq_refl)
    as (todos & r & H1 & H2 & H3 & _).
  exists todos, r. split; [exact H1|]. split; [exact H2|exact H3].
Defined.

(** X6. The two lookups by key answer a failure like a missing row: when
    opening the session or the query raises (and the session can be closed),
    [obtener_por_id] and [UsuarioController.buscar_por_id] return [None]; all
    that tells the failure apart is the line they print. *)
Theorem busquedas_por_id_fallan (E : Entorno) (s : Estado) (e : string) :
  self_session s = None ->
  falla E Close = None ->
  (forall libro_id,
     falla E GetSession = Some e
     \/ (falla E GetSession = None /\ falla E QueryLibro = Some e) ->
     obtener_por_id libro_id E s
     = (Ok None,
        {| self_session := None; db := db s; lecturas := lecturas s;
           stdout := stdout s ++ ["Error al obtener libro: " +:+ e] |}))
  /\ (forall usuario_id,
        falla E GetSession = Some e
        \/ (falla E GetSession = None /\ falla E QueryUsuario = Some e) ->
        UsuarioController.buscar_por_id usuario_id E s
        = (Ok None,
           {| self_session := None; db := db s; lecturas := lecturas s;
              stdout := stdout s ++ ["Error al obtener usuario: " +:+ e] |})).
Proof.
  intros Hses Hclose. split.
  - intros libro_id Hfalla. unfold obtener_por_id, query_Libro_por_id.
    by apply lectura_falla.
  - intros usuario_id Hfalla.
    unfold UsuarioController.buscar_por_id, query_Usuario_first.
    by apply lectura_falla.
Qed.

Lemma busquedas_por_id_fallan_witness :
  self_session (estado_inicial biblioteca) = None
  /\ falla entorno_sin_consultas Close = None
  /\ falla entorno_sin_consultas GetSession = None
  /\ falla entorno_sin_consultas QueryLibro = Some "login timeout expired"
  /\ fst (obtener_por_id "978-0001" entorno_sin_consultas
            (estado_inicial biblioteca)) = Ok None.
Proof.
  repeat (split; [reflexivity|]).
  exact (f_equal fst
           (proj1 (busquedas_por_id_fallan entorno_sin_consultas
                     (estado_inicial biblioteca) "login timeout expired"
                     eq_refl eq_refl)
              "978-0001" (or_intror (conj eq_refl eq_refl)))).
Defined.

(** The loans a listing loads are the open ones. *)
Lemma elem_of_prestamos_cargados d x :
  x ∈ cargar_prestamo d <$>
        List.filter (fun fila => bool_decide (Prestamo.FechaDevolución (snd fila) = None))
          (map_to_list (tblPrestamos d)) <->
  tblPrestamos d !! IdPrestamo x = Some (prestamo x)
  /\ Prestamo.FechaDevolución (prestamo x) = None
  /\ libro x = tblLibros d !! Prestamo.ISBN (prestamo x)
  /\ usuario x = tblUsuarios d !! Prestamo.IdUsuario (prestamo x).
Proof.
  rewrite list_elem_of_fmap. split.
  - intros ([id p] & -> & [Hin Hc]%elem_of_filter).
    apply elem_of_map_to_list in Hin. apply bool_decide_eq_true in Hc. done.
  - intros (Hl & Hf & Hb & Hu). exists (IdPrestamo x, prestamo x). split.
    + destruct x; simpl in *. by subst.
    + apply elem_of_filter. split; [by apply elem_of_map_to_list|].
      by apply bool_decide_eq_true.
Qed.

Lemma listado_abierto_sobre d x :
  tblPrestamos d !! IdPrestamo x = Some (prestamo x) ->
  Prestamo.FechaDevolución (prestamo x) = None ->
  abierto_sobre d (Prestamo.ISBN (prestamo x)) (IdPrestamo x).
Proof. intros Hl Hf. by exists (prestamo x). Qed.

(** X7. When nothing raises, [obtener_prestamos_activos] lists exactly the
    loans without a return date, each once, with the book and the borrower
    their rows point to, and leaves the state as it was.  On a consistent
    ledger no book is listed twice and every listed book is flagged as not
    available. *)
Theorem obtener_prestamos_activos_abiertos (E : Entorno) (s : Estado) :
  self_session s = None ->
  falla E GetSession = None -> falla E QueryPrestamo = None ->
  falla E Close = None ->
  exists activos,
    obtener_prestamos_activos E s = (Ok activos, s)
    /\ (forall x, x ∈ activos <->
          tblPrestamos (db s) !! IdPrestamo x = Some (prestamo x)
          /\ Prestamo.FechaDevolución (prestamo x) = None
          /\ libro x = tblLibros (db s) !! Prestamo.ISBN (prestamo x)
          /\ usuario x = tblUsuarios (db s) !! Prestamo.IdUsuario (prestamo x))
    /\ NoDup (IdPrestamo <$> activos)
    /\ (invariante (db s) ->
        forall x l, x ∈ activos -> libro x = Some l ->
          Libro.Disponible l = Some false
          /\ forall y, y ∈ activos ->
               Prestamo.ISBN (prestamo y) = Prestamo.ISBN (prestamo x) ->
               IdPrestamo y = IdPrestamo x).
Proof.
  intros Hses Hget Hq Hclose. eexists.
  split; [by apply obtener_prestamos_activos_ok|].
  split; [apply elem_of_prestamos_cargados|]. split.
  - rewrite <- list_fmap_compose.
    apply (NoDup_fmap_filter (IdPrestamo ∘ cargar_prestamo (db s))).
    apply (NoDup_fst_map_to_list (tblPrestamos (db s))).
  - intros Hinv x l (Hx & Hfx & Hbx & _)%elem_of_prestamos_cargados Hl.
    rewrite Hbx in Hl. destruct (Hinv _ _ Hl) as [Hiff Huno]. split.
    + apply Hiff. eexists. by apply listado_abierto_sobre.
    + intros y (Hy & Hfy & _)%elem_of_prestamos_cargados Hisbn.
      apply Huno; [|by apply listado_abierto_sobre].
      rewrite <- Hisbn. by apply listado_abierto_sobre.
Qed.

Lemma obtener_prestamos_activos_abiertos_witness :
  self_session biblioteca_prestada = None
  /\ falla entorno_normal GetSession = None
  /\ falla entorno_normal QueryPrestamo = None
  /\ falla entorno_normal Close = None
  /\ exists activos,
       obtener_prestamos_activos entorno_normal biblioteca_prestada
       = (Ok activos, biblioteca_prestada)
       /\ NoDup (IdPrestamo <$> activos).
Proof.
  assert (self_session biblioteca_prestada = None) as Hses
    by (vm_compute; reflexivity).
  split; [exact Hses|]. repeat (split; [reflexivity|]).
  destruct (obtener_prestamos_activos_abiertos entorno_normal biblioteca_prestada
              Hses eq_refl eq_refl eq_refl) as (activos & H1 & _ & H2 & _).
  exists activos. split; [exact H1|exact H2].
Defined.

(** X8. When nothing raises, [UsuarioController.obtener_todos] lists every
    user exactly once, whether active or not, and
    [UsuarioController.buscar_por_id] finds exactly the users of that list. *)
Theorem usuarios_listados (E : Entorno) (s : Estado) :
  self_session s = None ->
  falla E GetSession = None -> falla E QueryUsuario = None ->
  falla E Close = None ->
  exists usuarios,
    UsuarioController.obtener_todos E s = (Ok usuarios, s)
    /\ (forall id u, (id, u) ∈ usuarios <-> tblUsuarios (db s) !! id = Some u)
    /\ NoDup (fst <$> usuarios)
    /\ forall id,
         exists r, UsuarioController.buscar_por_id id E s = (Ok r, s)
                   /\ forall u, r = Some u <-> (id, u) ∈ usuarios.
Proof.
  intros Hses Hget Hq Hclose. eexists.
  split; [by apply usuarios_obtener_todos_ok|]. split; [|split].
  - intros id u. apply elem_of_map_to_list.
  - apply NoDup_fst_map_to_list.
  - intros id. eexists. split; [by apply usuarios_buscar_por_id_ok|].
    intros u. by rewrite elem_of_map_to_list.
Qed.

Lemma usuarios_listados_witness :
  self_session (estado_inicial biblioteca) = None
  /\ falla entorno_normal GetSession = None
  /\ falla entorno_normal QueryUsuario = None
  /\ falla entorno_normal Close = None
  /\ exists usuarios,
       UsuarioController.obtener_todos entorno_normal (estado_inicial biblioteca)
       = (Ok usuarios, estado_inicial biblioteca)
       /\ ((8, luis_inactivo) ∈ usuarios <->
           tblUsuarios biblioteca !! 8 = Some luis_inactivo).
Proof.
  repeat (split; [reflexivity|]).
  destruct (usuarios_listados entorno_normal (estado_inicial biblioteca)
              eq_refl eq_refl eq_refl eq_refl) as (usuarios & H1 & H2 & _).
  exists usuarios. split; [exact H1|exact (H2 8 luis_inactivo)].
Defined.

(** ** How the operations compose *)

(** The state a successful [crear_prestamo] leaves. *)
Lemma crear_prestamo_exito_estado E s isbn usuario_id m :
  self_session s = None -> sin_fallos E ->
  fst (crear_prestamo isbn usuario_id E s) = Ok (true, m) ->
  exists l,
    tblLibros (db s) !! isbn = Some l /\ Libro.Disponible l = Some true
    /\ is_Some (tblUsuarios (db s) !! usuario_id)
    /\ snd (crear_prestamo isbn usuario_id E s)
       = {| self_session := None;
            db := tras_prestamo isbn usuario_id (ahora E (lecturas s))
                    (ahora E (S (lecturas s))) (db s);
            lecturas := S (S (lecturas s));
            stdout := stdout s |}.
Proof.
  intros Hses Hsin Hm.
  destruct (crear_prestamo_exito_inv _ _ _ _ _ Hses Hm)
    as (l & Hl & Hd & [u Hu] & _).
  exists l. split; [done|]. split; [done|]. split; [by eexists|].
  by rewrite (crear_exito E s isbn usuario_id Hses (Hsin _) (Hsin _) (Hsin _)
                l u Hl Hd (Hsin _) Hu (Hsin _)).
Qed.

(** X9. Lend, then list.  After a successful [crear_prestamo] on a consistent
    ledger, [obtener_prestamos_activos] shows exactly one loan of that book;
    it is a new one, made out to the borrower, and [obtener_disponibles] no
    longer offers the book. *)
Theorem prestar_y_listar (E : Entorno) (s : Estado) (isbn : string)
    (usuario_id : Z) (m : string) :
  self_session s = None ->
  sin_fallos E ->
  invariante (db s) ->
  fst (crear_prestamo isbn usuario_id E s) = Ok (true, m) ->
  exists activos disponibles x,
    fst (obtener_prestamos_activos E (snd (crear_prestamo isbn usuario_id E s)))
    = Ok activos
    /\ fst (obtener_disponibles E (snd (crear_prestamo isbn usuario_id E s)))
       = Ok disponibles
    /\ x ∈ activos
    /\ Prestamo.ISBN (prestamo x) = isbn
    /\ Prestamo.IdUsuario (prestamo x) = usuario_id
    /\ tblPrestamos (db s) !! IdPrestamo x = None
    /\ (forall y, y ∈ activos -> Prestamo.ISBN (prestamo y) = isbn -> y = x)
    /\ forall z, z ∈ disponibles -> ISBN z <> isbn.
Proof.
  intros Hses Hsin Hinv Hm.
  destruct (crear_prestamo_exito_estado _ _ _ _ _ Hses Hsin Hm)
    as (l & Hl & Hd & Hu & ->).
  set (d1 := tras_prestamo isbn usuario_id (ahora E (lecturas s))
               (ahora E (S (lecturas s))) (db s)).
  rewrite obtener_prestamos_activos_ok, obtener_disponibles_ok
    by (done || apply Hsin).
  simpl. fold d1.
  assert (forall id, ~ abierto_sobre (db s) isbn id) as Hninguno.
  { intros id Hid. destruct (Hinv isbn l Hl) as [[_ H] _].
    rewrite H in Hd by eauto. discriminate. }
  set (k := siguiente_id (tblPrestamos (db s))).
  assert (tblPrestamos d1 !! k
          = Some (Prestamo.con_defaults
                    (nuevo_prestamo isbn usuario_id (ahora E (lecturas s))
                       (ahora E (S (lecturas s)))))) as Hk.
  { unfold d1, tras_prestamo, insertar. simpl. apply lookup_insert_eq. }
  do 2 eexists. eexists (cargar_prestamo d1 (k, _)).
  split; [done|]. split; [done|]. split.
  { apply elem_of_prestamos_cargados. simpl. done. }
  split; [done|]. split; [done|]. split; [apply siguiente_id_libre|]. split.
  - intros y (Hy & Hfy & Hby & Huy)%elem_of_prestamos_cargados Hisbn.
    assert (abierto_sobre d1 isbn (IdPrestamo y)) as Hab
      by (rewrite <- Hisbn; by apply listado_abierto_sobre).
    apply abierto_tras_prestamo in Hab as [[Hid _]|Hab];
      [|by destruct (Hninguno _ Hab)].
    fold k in Hid. rewrite Hid, Hk in Hy. simplify_eq.
    destruct y as [idy py ly uy]; simpl in *. subst.
    unfold cargar_prestamo. simpl. by rewrite <- Hy.
  - intros z (Hz & Hc & _)%elem_of_libros_cargados Hisbn.
    simpl in Hc. apply bool_decide_eq_true in Hc.
    unfold d1 in Hz. rewrite libros_tras_prestamo, Hisbn, decide_True, Hl in Hz
      by done.
    simplify_eq/=. rewrite <- Hz in Hc. discriminate.
Qed.

Lemma prestar_y_listar_witness :
  self_session (estado_inicial biblioteca) = None
  /\ sin_fallos entorno_normal
  /\ invariante (db (estado_inicial biblioteca))
  /\ fst (crear_prestamo "978-0001" 7 entorno_normal (estado_inicial biblioteca))
     = Ok (true, "Préstamo realizado exitosamente.")
  /\ exists activos x,
       fst (obtener_prestamos_activos entorno_normal
              (snd (crear_prestamo "978-0001" 7 entorno_normal
                      (estado_inicial biblioteca)))) = Ok activos
       /\ x ∈ activos
       /\ Prestamo.ISBN (prestamo x) = "978-0001"
       /\ Prestamo.IdUsuario (prestamo x) = 7.
Proof.
  assert (fst (crear_prestamo "978-0001" 7 entorno_normal
                 (estado_inicial biblioteca))
          = Ok (true, "Préstamo realizado exitosamente.")) as Hm
    by (vm_compute; reflexivity).
  split; [reflexivity|]. split; [intros c; reflexivity|].
  split; [exact invariante_biblioteca|]. split; [exact Hm|].
  destruct (prestar_y_listar entorno_normal (estado_inicial biblioteca)
              "978-0001" 7 _ eq_refl (fun c => eq_refl) invariante_biblioteca Hm)
    as (activos & disponibles & x & H1 & _ & H2 & H3 & H4 & _).
  exists activos, x. split; [exact H1|]. split; [exact H2|].
  split; [exact H3|exact H4].
Defined.

(** The state a successful [devolver_libro] leaves. *)
Lemma devolver_libro_exito_estado E s id_prestamo m :
  self_session s = None -> sin_fallos E ->
  fst (devolver_libro id_prestamo E s) = Ok (true, m) ->
  exists p,
    tblPrestamos (db s) !! id_prestamo = Some p
    /\ Prestamo.FechaDevolución p = None
    /\ snd (devolver_libro id_prestamo E s)
       = {| self_session := None;
            db := tras_devolucion id_prestamo p (ahora E (lecturas s)) (db s);
            lecturas := S (lecturas s);
            stdout := stdout s |}.
Proof.
  intros Hses Hsin Hm.
  destruct (devolver_libro_exito_inv _ _ _ _ Hses Hm) as (p & Hp & Hf & _).
  exists p. split; [done|]. split; [done|].
  by rewrite (devolver_exito E s id_prestamo Hses (Hsin _) (Hsin _) (Hsin _)
                p Hp Hf (Hsin _) (Hsin _)).
Qed.

(** X10. Return, then list.  After a successful [devolver_libro] the loan is
    gone from [obtener_prestamos_activos], and the book it referenced, if the
    catalog has it, is offered by [obtener_disponibles] again. *)
Theorem devolver_y_listar (E : Entorno) (s : Estado) (id_prestamo : Z)
    (m : string) :
  self_session s = None ->
  sin_fallos E ->
  fst (devolver_libro id_prestamo E s) = Ok (true, m) ->
  exists p activos disponibles,
    tblPrestamos (db s) !! id_prestamo = Some p
    /\ fst (obtener_prestamos_activos E (snd (devolver_libro id_prestamo E s)))
       = Ok activos
    /\ fst (obtener_disponibles E (snd (devolver_libro id_prestamo E s)))
       = Ok disponibles
    /\ (forall x, x ∈ activos -> IdPrestamo x <> id_prestamo)
    /\ (is_Some (tblLibros (db s) !! Prestamo.ISBN p) ->
        exists z, z ∈ disponibles /\ ISBN z = Prestamo.ISBN p).
Proof.
  intros Hses Hsin Hm.
  destruct (devolver_libro_exito_estado _ _ _ _ Hses Hsin Hm)
    as (p & Hp & Hf & ->).
  set (d1 := tras_devolucion id_prestamo p (ahora E (lecturas s)) (db s)).
  rewrite obtener_prestamos_activos_ok, obtener_disponibles_ok
    by (done || apply Hsin).
  simpl. fold d1. exists p. do 2 eexists.
  split; [done|]. split; [done|]. split; [done|]. split.
  - intros x (Hx & Hfx & _)%elem_of_prestamos_cargados Heq.
    unfold d1 in Hx. rewrite Heq, prestamo_tras_devolucion in Hx by done.
    simplify_eq. rewrite <- Hx in Hfx. discriminate.
  - intros [l Hl].
    exists (libro_cargado d1 (Prestamo.ISBN p)
              (Libro.con_Disponible (Some true) l)).
    split; [|done]. apply elem_of_libros_cargados. simpl.
    split; [|done]. unfold d1.
    by rewrite libros_tras_devolucion, decide_True, Hl.
Qed.

Lemma devolver_y_listar_witness :
  self_session biblioteca_prestada = None
  /\ sin_fallos entorno_normal
  /\ fst (devolver_libro 1 entorno_normal biblioteca_prestada)
     = Ok (true, "Libro devuelto correctamente. ¡Gracias!")
  /\ exists activos,
       fst (obtener_prestamos_activos entorno_normal
              (snd (devolver_libro 1 entorno_normal biblioteca_prestada)))
       = Ok activos
       /\ forall x, x ∈ activos -> IdPrestamo x <> 1.
Proof.
  assert (self_session biblioteca_prestada = None) as Hses
    by (vm_compute; reflexivity).
  assert (fst (devolver_libro 1 entorno_normal biblioteca_prestada)
          = Ok (true, "Libro devuelto correctamente. ¡Gracias!")) as Hm
    by (vm_compute; reflexivity).
  split; [exact Hses|]. split; [intros c; reflexivity|]. split; [exact Hm|].
  destruct (devolver_y_listar entorno_normal biblioteca_prestada 1 _
              Hses (fun c => eq_refl) Hm)
    as (p & activos & disponibles & _ & H1 & _ & H2 & _).
  exists activos. split; [exact H1|exact H2].
Defined.

Lemma otras_tablas_tras_prestamo isbn usuario_id t1 t2 d :
  tblUsuarios (tras_prestamo isbn usuario_id t1 t2 d) = tblUsuarios d
  /\ tblAutores (tras_prestamo isbn usuario_id t1 t2 d) = tblAutores d
  /\ tblCategorías (tras_prestamo isbn usuario_id t1 t2 d) = tblCategorías d.
Proof. done. Qed.

Lemma otras_tablas_tras_devolucion id p t d :
  tblUsuarios (tras_devolucion id p t d) = tblUsuarios d
  /\ tblAutores (tras_devolucion id p t d) = tblAutores d
  /\ tblCategorías (tras_devolucion id p t d) = tblCategorías d.
Proof. unfold tras_devolucion. by destruct (tblLibros d !! Prestamo.ISBN p). Qed.

Lemma prestamos_tras_devolucion id p t d :
  tblPrestamos (tras_devolucion id p t d)
  = alter (Prestamo.con_FechaDevolución (Some t)) id (tblPrestamos d).
Proof. unfold tras_devolucion. by destruct (tblLibros d !! Prestamo.ISBN p). Qed.

Lemma con_Disponible_ida_y_vuelta l :
  Libro.Disponible l = Some true ->
  Libro.con_Disponible (Some true) (Libro.con_Disponible (Some false) l) = l.
Proof. destruct l; simpl; by intros ->. Qed.

(** X11. Lend and return.  When nothing raises, lending an available book to
    an existing borrower and returning that loan both succeed; afterwards the
    catalog, the users, the authors and the categories are exactly as before,
    and the ledger holds one more row, the closed loan, under a key that was
    free. *)
Theorem prestar_y_devolver (E : Entorno) (s : Estado) (isbn : string)
    (usuario_id : Z) (l : Libro.t) (u : Usuario.t) :
  self_session s = None ->
  sin_fallos E ->
  tblLibros (db s) !! isbn = Some l ->
  Libro.Disponible l = Some true ->
  tblUsuarios (db s) !! usuario_id = Some u ->
  exists id s1 s2,
    tblPrestamos (db s) !! id = None
    /\ crear_prestamo isbn usuario_id E s
       = (Ok (true, "Préstamo realizado exitosamente."), s1)
    /\ devolver_libro id E s1
       = (Ok (true, "Libro devuelto correctamente. ¡Gracias!"), s2)
    /\ tblLibros (db s2) = tblLibros (db s)
    /\ tblUsuarios (db s2) = tblUsuarios (db s)
    /\ tblAutores (db s2) = tblAutores (db s)
    /\ tblCategorías (db s2) = tblCategorías (db s)
    /\ tblPrestamos (db s2)
       = <[id := {| Prestamo.IdUsuario := usuario_id;
                    Prestamo.ISBN := isbn;
                    Prestamo.FechaPréstamo := Some (ahora E (lecturas s));
                    Prestamo.FechaVencimiento :=
                      ahora E (S (lecturas s)) + timedelta 14;
                    Prestamo.FechaDevolución :=
                      Some (ahora E (S (S (lecturas s))));
                    Prestamo.MultaPagar := Some 0;
                    Prestamo.OtrosDetalles := None |}]> (tblPrestamos (db s)).
Proof.
  intros Hses Hsin Hl Hd Hu.
  set (k := siguiente_id (tblPrestamos (db s))).
  set (d1 := tras_prestamo isbn usuario_id (ahora E (lecturas s))
               (ahora E (S (lecturas s))) (db s)).
  set (p := Prestamo.con_defaults
              (nuevo_prestamo isbn usuario_id (ahora E (lecturas s))
                 (ahora E (S (lecturas s))))).
  assert (tblPrestamos d1 !! k = Some p) as Hk.
  { unfold d1, tras_prestamo, insertar. simpl. apply lookup_insert_eq. }
  set (s1 := {| self_session := None; db := d1;
                lecturas := S (S (lecturas s)); stdout := stdout s |}).
  exists k, s1. eexists. split; [apply siguiente_id_libre|].
  split.
  { exact (crear_exito E s isbn usuario_id Hses (Hsin _) (Hsin _) (Hsin _)
             l u Hl Hd (Hsin _) Hu (Hsin _)). }
  split.
  { exact (devolver_exito E s1 k eq_refl (Hsin _) (Hsin _) (Hsin _)
             p Hk eq_refl (Hsin _) (Hsin _)). }
  unfold s1. cbn [db lecturas].
  assert (tblLibros d1 !! isbn = Some (Libro.con_Disponible (Some false) l)) as Hl1.
  { unfold d1. by rewrite libros_tras_prestamo, decide_True, Hl. }
  destruct (otras_tablas_tras_devolucion k p (ahora E (S (S (lecturas s)))) d1)
    as (-> & -> & ->).
  rewrite prestamos_tras_devolucion.
  split; [|split; [done|split; [done|split; [done|]]]].
  - apply map_eq. intros b. rewrite libros_tras_devolucion.
    change (Prestamo.ISBN p) with isbn. case_decide as Hb.
    + subst b. rewrite Hl1, Hl. simpl. by rewrite con_Disponible_ida_y_vuelta.
    + unfold d1. by rewrite libros_tras_prestamo, decide_False.
  - unfold d1, tras_prestamo, insertar. simpl. fold k.
    apply map_eq. intros j. rewrite lookup_alter.
    case_decide as Hj.
    + subst j. by rewrite !lookup_insert_eq.
    + by rewrite !lookup_insert_ne.
Qed.

Lemma prestar_y_devolver_witness :
  self_session (estado_inicial biblioteca) = None
  /\ sin_fallos entorno_normal
  /\ tblLibros (db (estado_inicial biblioteca)) !! "978-0001" = Some cien_años
  /\ Libro.Disponible cien_años = Some true
  /\ tblUsuarios (db (estado_inicial biblioteca)) !! 7 = Some ana
  /\ exists id s1 s2,
       crear_prestamo "978-0001" 7 entorno_normal (estado_inicial biblioteca)
       = (Ok (true, "Préstamo realizado exitosamente."), s1)
       /\ devolver_libro id entorno_normal s1
          = (Ok (true, "Libro devuelto correctamente. ¡Gracias!"), s2)
       /\ tblLibros (db s2) = tblLibros biblioteca.
Proof.
  split; [reflexivity|]. split; [intros c; reflexivity|].
  repeat (split; [reflexivity|]).
  destruct (prestar_y_devolver entorno_normal (estado_inicial biblioteca)
              "978-0001" 7 cien_años ana eq_refl (fun c => eq_refl)
              eq_refl eq_refl eq_refl)
    as (id & s1 & s2 & _ & H1 & H2 & H3 & _).
  exists id, s1, s2. split; [exact H1|]. split; [exact H2|exact H3].
Defined.

(** X12. Lending a book that is out.  After a successful [crear_prestamo], a
    second one for the same book, for whichever borrower, is refused with
    "... ya está prestado." and changes nothing. *)
Theorem prestar_dos_veces (E : Entorno) (s : Estado) (isbn : string)
    (usuario_id otro_usuario : Z) (m : string) :
  self_session s = None ->
  sin_fallos E ->
  fst (crear_prestamo isbn usuario_id E s) = Ok (true, m) ->
  exists l,
    tblLibros (db s) !! isbn = Some l
    /\ crear_prestamo isbn otro_usuario E (snd (crear_prestamo isbn usuario_id E s))
       = (Ok (false, "El libro '" +:+ Libro.Título l +:+ "' ya está prestado."),
          snd (crear_prestamo isbn usuario_id E s)).
Proof.
  intros Hses Hsin Hm.
  destruct (crear_prestamo_exito_estado _ _ _ _ _ Hses Hsin Hm)
    as (l & Hl & Hd & Hu & ->).
  exists l. split; [done|].
  apply crear_libro_prestado with (l := Libro.con_Disponible (Some false) l);
    try done; try apply Hsin.
  cbn [db]. by rewrite libros_tras_prestamo, decide_True, Hl.
Qed.

Lemma prestar_dos_veces_witness :
  self_session (estado_inicial biblioteca) = None
  /\ sin_fallos entorno_normal
  /\ fst (crear_prestamo "978-0001" 7 entorno_normal (estado_inicial biblioteca))
     = Ok (true, "Préstamo realizado exitosamente.")
  /\ exists l,
       tblLibros biblioteca !! "978-0001" = Some l
       /\ crear_prestamo "978-0001" 8 entorno_normal
            (snd (crear_prestamo "978-0001" 7 entorno_normal
                    (estado_inicial biblioteca)))
          = (Ok (false, "El libro '" +:+ Libro.Título l +:+ "' ya está prestado."),
             snd (crear_prestamo "978-0001" 7 entorno_normal
                    (estado_inicial biblioteca))).
Proof.
  assert (fst (crear_prestamo "978-0001" 7 entorno_normal
                 (estado_inicial biblioteca))
          = Ok (true, "Préstamo realizado exitosamente.")) as Hm
    by (vm_compute; reflexivity).
  split; [reflexivity|]. split; [intros c; reflexivity|]. split; [exact Hm|].
  exact (prestar_dos_veces entorno_normal (estado_inicial biblioteca)
           "978-0001" 7 8 _ eq_refl (fun c => eq_refl) Hm).
Defined.

(** ** What lending and returning never touch *)

Lemma prestamos_tras_prestamo isbn usuario_id t1 t2 d id p :
  tblPrestamos d !! id = Some p ->
  tblPrestamos (tras_prestamo isbn usuario_id t1 t2 d) !! id = Some p.
Proof.
  intros Hp. unfold tras_prestamo, insertar. simpl.
  rewrite lookup_insert_ne; [done|].
  intros Heq. rewrite <- Heq, siguiente_id_libre in Hp. discriminate.
Qed.

(** X13. The ledger is a history.  Whatever the persistence layer does,
    [crear_prestamo] leaves every existing loan exactly as it was, and
    [devolver_libro] never deletes a loan and changes at most the return date
    of the loan asked for, and only if that loan had none: borrower, book,
    loan and due timestamps, fee and notes stay, so no fee is ever computed
    at return, however late. *)
Theorem historial_solo_crece (E : Entorno) (s : Estado) :
  self_session s = None ->
  (forall isbn usuario_id id p,
     tblPrestamos (db s) !! id = Some p ->
     tblPrestamos (db (snd (crear_prestamo isbn usuario_id E s))) !! id = Some p)
  /\ (forall id_prestamo id p,
        tblPrestamos (db s) !! id = Some p ->
        exists p',
          tblPrestamos (db (snd (devolver_libro id_prestamo E s))) !! id = Some p'
          /\ Prestamo.IdUsuario p' = Prestamo.IdUsuario p
          /\ Prestamo.ISBN p' = Prestamo.ISBN p
          /\ Prestamo.FechaPréstamo p' = Prestamo.FechaPréstamo p
          /\ Prestamo.FechaVencimiento p' = Prestamo.FechaVencimiento p
          /\ Prestamo.MultaPagar p' = Prestamo.MultaPagar p
          /\ Prestamo.OtrosDetalles p' = Prestamo.OtrosDetalles p
          /\ (p' = p
              \/ (id = id_prestamo
                  /\ Prestamo.FechaDevolución p = None
                  /\ Prestamo.FechaDevolución p' = Some (ahora E (lecturas s))))).
Proof.
  intros Hses. split.
  - intros isbn usuario_id id p Hp.
    destruct (crear_prestamo isbn usuario_id E s) as [r s'] eqn:Hrun.
    cbn [snd].
    apply crear_prestamo_casos in Hrun
      as [[Hdb _]|(l & _ & _ & _ & _ & Hdb & _)]; [by rewrite Hdb| |done].
    rewrite Hdb. by apply prestamos_tras_prestamo.
  - intros id_prestamo id p Hp.
    destruct (devolver_libro id_prestamo E s) as [r s'] eqn:Hrun.
    cbn [snd].
    apply devolver_libro_casos in Hrun
      as [[Hdb _]|(q & Hq & Hf & _ & Hdb & _)]; [|  |done].
    { exists p. rewrite Hdb. repeat split; auto. }
    rewrite Hdb, prestamos_tras_devolucion, lookup_alter.
    case_decide as Hid.
    + subst id. rewrite Hp. simplify_eq.
      eexists. split; [done|]. repeat split. right. done.
    + exists p. repeat split; auto.
Qed.

Lemma historial_solo_crece_witness :
  self_session biblioteca_prestada = None
  /\ exists p p',
       tblPrestamos (db biblioteca_prestada) !! 1 = Some p
       /\ tblPrestamos (db (snd (devolver_libro 1 entorno_normal
                                   biblioteca_prestada))) !! 1 = Some p'
       /\ Prestamo.MultaPagar p' = Prestamo.MultaPagar p
       /\ Prestamo.FechaVencimiento p' = Prestamo.FechaVencimiento p.
Proof.
  assert (self_session biblioteca_prestada = None) as Hses
    by (vm_compute; reflexivity).
  split; [exact Hses|].
  assert (exists p, tblPrestamos (db biblioteca_prestada) !! 1 = Some p)
    as [p Hp] by (eexists; vm_compute; reflexivity).
  destruct (proj2 (historial_solo_crece entorno_normal biblioteca_prestada Hses)
              1 1 p Hp) as (p' & H1 & _ & _ & _ & H2 & H3 & _).
  exists p, p'. split; [exact Hp|]. split; [exact H1|].
  split; [exact H3|exact H2].
Defined.

(** X14. Whatever the persistence layer does, [crear_prestamo] and
    [devolver_libro] leave users, authors and categories alone, never add or
    remove a book, and change nothing of a book but the flag of the one book
    concerned. *)
Theorem catalogo_intacto (E : Entorno) (s : Estado) :
  self_session s = None ->
  (forall isbn usuario_id,
     tblUsuarios (db (snd (crear_prestamo isbn usuario_id E s))) = tblUsuarios (db s)
     /\ tblAutores (db (snd (crear_prestamo isbn usuario_id E s))) = tblAutores (db s)
     /\ tblCategorías (db (snd (crear_prestamo isbn usuario_id E s)))
        = tblCategorías (db s)
     /\ forall b,
          tblLibros (db (snd (crear_prestamo isbn usuario_id E s))) !! b
          = tblLibros (db s) !! b
          \/ (b = isbn
              /\ exists l,
                   tblLibros (db s) !! b = Some l
                   /\ tblLibros (db (snd (crear_prestamo isbn usuario_id E s))) !! b
                      = Some (Libro.con_Disponible (Some false) l)))
  /\ (forall id_prestamo,
        tblUsuarios (db (snd (devolver_libro id_prestamo E s))) = tblUsuarios (db s)
        /\ tblAutores (db (snd (devolver_libro id_prestamo E s))) = tblAutores (db s)
        /\ tblCategorías (db (snd (devolver_libro id_prestamo E s)))
           = tblCategorías (db s)
        /\ forall b,
             tblLibros (db (snd (devolver_libro id_prestamo E s))) !! b
             = tblLibros (db s) !! b
             \/ exists p l,
                  tblPrestamos (db s) !! id_prestamo = Some p
                  /\ b = Prestamo.ISBN p
                  /\ tblLibros (db s) !! b = Some l
                  /\ tblLibros (db (snd (devolver_libro id_prestamo E s))) !! b
                     = Some (Libro.con_Disponible (Some true) l)).
Proof.
  intros Hses. split.
  - intros isbn usuario_id.
    destruct (crear_prestamo isbn usuario_id E s) as [r s'] eqn:Hrun.
    cbn [snd].
    apply crear_prestamo_casos in Hrun
      as [[Hdb _]|(l & Hl & _ & _ & _ & Hdb & _)]; [|  |done].
    { rewrite Hdb. repeat split. by left. }
    rewrite Hdb. repeat split. intros b. rewrite libros_tras_prestamo.
    case_decide as Hb; [|by left]. subst b. right. split; [done|].
    exists l. by rewrite Hl.
  - intros id_prestamo.
    destruct (devolver_libro id_prestamo E s) as [r s'] eqn:Hrun.
    cbn [snd].
    apply devolver_libro_casos in Hrun
      as [[Hdb _]|(p & Hp & _ & _ & Hdb & _)]; [|  |done].
    { rewrite Hdb. repeat split. by left. }
    rewrite Hdb.
    destruct (otras_tablas_tras_devolucion id_prestamo p (ahora E (lecturas s))
                (db s)) as (-> & -> & ->).
    repeat split. intros b. rewrite libros_tras_devolucion.
    case_decide as Hb; [|by left]. subst b.
    destruct (tblLibros (db s) !! Prestamo.ISBN p) as [l|] eqn:Hl; [|by left].
    right. exists p, l. done.
Qed.

Lemma catalogo_intacto_witness :
  self_session (estado_inicial biblioteca) = None
  /\ tblUsuarios (db (snd (crear_prestamo "978-0001" 7 entorno_normal
                             (estado_inicial biblioteca))))
     = tblUsuarios (db (estado_inicial biblioteca)).
Proof.
  split; [reflexivity|].
  exact (proj1 (proj1 (catalogo_intacto entorno_normal
                         (estado_inicial biblioteca) eq_refl) "978-0001" 7)).
Defined.

(** ** Failures on the way *)

(** X15. A commit that raises.  When the checks pass and [commit] raises [e],
    [crear_prestamo] answers (False, "Error al procesar préstamo: e") and
    prints the same line, [devolver_libro] answers
    (False, "Error en devolución: e") and prints nothing; in both cases the
    store is as before, the session is closed, and only the clock has been
    read. *)
Theorem commit_rechazado (E : Entorno) (s : Estado) (e : string) :
  self_session s = None ->
  falla E GetSession = None -> falla E Rollback = None ->
  falla E Close = None ->
  falla E Commit = Some e ->
  (forall isbn usuario_id l u,
     falla E QueryLibro = None -> falla E QueryUsuario = None ->
     tblLibros (db s) !! isbn = Some l -> Libro.Disponible l = Some true ->
     tblUsuarios (db s) !! usuario_id = Some u ->
     crear_prestamo isbn usuario_id E s
     = (Ok (false, "Error al procesar préstamo: " +:+ e),
        {| self_session := None; db := db s; lecturas := S (S (lecturas s));
           stdout := stdout s ++ ["Error al procesar préstamo: " +:+ e] |}))
  /\ (forall id_prestamo p,
        falla E QueryPrestamo = None -> falla E QueryLibro = None ->
        tblPrestamos (db s) !! id_prestamo = Some p ->
        Prestamo.FechaDevolución p = None ->
        devolver_libro id_prestamo E s
        = (Ok (false, "Error en devolución: " +:+ e),
           {| self_session := None; db := db s; lecturas := S (lecturas s);
              stdout := stdout s |})).
Proof.
  destruct s as [ses d n out]; simpl; intros -> Hget Hroll Hclose Hcommit.
  split.
  - intros isbn usuario_id l u Hql Hqu Hl Hd Hu. desplegar. by avanzar.
  - intros id_prestamo p Hqp Hql Hp Hf. desplegar.
    destruct (tblLibros d !! Prestamo.ISBN p) eqn:Hlibro; by avanzar.
Qed.

Lemma commit_rechazado_witness :
  self_session (estado_inicial biblioteca) = None
  /\ falla entorno_sin_commit GetSession = None
  /\ falla entorno_sin_commit Rollback = None
  /\ falla entorno_sin_commit Close = None
  /\ falla entorno_sin_commit Commit = Some "deadlock victim"
  /\ fst (crear_prestamo "978-0001" 7 entorno_sin_commit (estado_inicial biblioteca))
     = Ok (false, "Error al procesar préstamo: deadlock victim").
Proof.
  repeat (split; [reflexivity|]).
  exact (f_equal fst
           (proj1 (commit_rechazado entorno_sin_commit (estado_inicial biblioteca)
                     "deadlock victim" eq_refl eq_refl eq_refl eq_refl eq_refl)
              "978-0001" 7 cien_años ana eq_refl eq_refl eq_refl eq_refl eq_refl)).
Defined.

(** ** [UsuarioController.crear] *)

Lemma siguiente_id_usuario_libre (m : gmap Z Usuario.t) :
  m !! siguiente_id_usuario m = None.
Proof.
  destruct (m !! siguiente_id_usuario m) eqn:H; [|done].
  assert (siguiente_id_usuario m <= foldr Z.max 0 (elements (dom m))).
  { apply foldr_max_cota, elem_of_elements, elem_of_dom. eauto. }
  unfold siguiente_id_usuario in *. lia.
Qed.

(** A successful [UsuarioController.crear], step by step. *)
Lemma crear_usuario_ok (E : Entorno) (s : Estado) (nombre apellido : string)
    (email : option string) :
  self_session s = None ->
  falla E GetSession = None -> falla E Commit = None -> falla E Close = None ->
  UsuarioController.crear nombre apellido email E s
  = (Ok (true, "Usuario " +:+ nombre +:+ " " +:+ apellido +:+ " creado con éxito."),
     {| self_session := None;
        db := con_tblUsuarios
                (<[siguiente_id_usuario (tblUsuarios (db s)) :=
                     {| Usuario.Nombres := nombre;
                        Usuario.Apellidos := apellido;
                        Usuario.Direccion := None;
                        Usuario.CorreoElectronico := email;
                        Usuario.UsuarioActivo := Some true |}]>
                   (tblUsuarios (db s)))
                (db s);
        lecturas := lecturas s;
        stdout := stdout s |}).
Proof.
  destruct s as [ses d n out]; simpl; intros -> Hget Hcommit Hclose.
  cbv [UsuarioController.crear try_except_finally bind ret get_session
       db_get_session llamar session_add_usuario modificar_session
       session_commit close_session con_self_session con_db flush
       self_session db lecturas stdout].
  rewrite Hget. simpl. rewrite Hcommit. simpl. rewrite Hclose. reflexivity.
Qed.

(** X16. When opening the session, [commit] and [close] work,
    [UsuarioController.crear] succeeds for any names and any e-mail, nothing
    being validated: it adds one user, active, without address, under a key
    that was free, and leaves every other row of the store and the rest of the
    state as they were. *)
Theorem crear_usuario_exito (E : Entorno) (s : Estado) (nombre apellido : string)
    (email : option string) :
  self_session s = None ->
  falla E GetSession = None -> falla E Commit = None -> falla E Close = None ->
  exists id d',
    UsuarioController.crear nombre apellido email E s
    = (Ok (true, "Usuario " +:+ nombre +:+ " " +:+ apellido +:+ " creado con éxito."),
       {| self_session := None; db := d'; lecturas := lecturas s;
          stdout := stdout s |})
    /\ tblUsuarios (db s) !! id = None
    /\ tblUsuarios d'
       = <[id := {| Usuario.Nombres := nombre;
                    Usuario.Apellidos := apellido;
                    Usuario.Direccion := None;
                    Usuario.CorreoElectronico := email;
                    Usuario.UsuarioActivo := Some true |}]> (tblUsuarios (db s))
    /\ tblLibros d' = tblLibros (db s)
    /\ tblPrestamos d' = tblPrestamos (db s)
    /\ tblAutores d' = tblAutores (db s)
    /\ tblCategorías d' = tblCategorías (db s).
Proof.
  intros Hses Hget Hcommit Hclose.
  exists (siguiente_id_usuario (tblUsuarios (db s))). eexists.
  split; [by apply crear_usuario_ok|].
  split; [apply siguiente_id_usuario_libre|]. done.
Qed.

Lemma crear_usuario_exito_witness :
  self_session (estado_inicial biblioteca) = None
  /\ falla entorno_normal GetSession = None
  /\ falla entorno_normal Commit = None
  /\ falla entorno_normal Close = None
  /\ exists id d',
       fst (UsuarioController.crear "" "" None entorno_normal
              (estado_inicial biblioteca))
       = Ok (true, "Usuario   creado con éxito.")
       /\ tblUsuarios biblioteca !! id = None
       /\ tblUsuarios d'
          = <[id := Usuario.Build "" "" None None (Some true)]>
              (tblUsuarios biblioteca).
Proof.
  repeat (split; [reflexivity|]).
  destruct (crear_usuario_exito entorno_normal (estado_inicial biblioteca)
              "" "" None eq_refl eq_refl eq_refl eq_refl)
    as (id & d' & H1 & H2 & H3 & _).
  exists id, d'. split; [exact (f_equal fst H1)|]. split; [exact H2|exact H3].
Defined.



(** X18. [UsuarioController.crear] when the persistence layer fails.  If
    [commit] raises [e] (and rollback and close work) it answers
    (False, "Error al crear usuario: e") and the whole state is as before.  If
    opening the session raises, no pair comes back: the handler reads the
    local name [session], which was never bound, and that exception reaches
    the caller; the store is untouched. *)
Theorem crear_usuario_falla (E : Entorno) (s : Estado) (nombre apellido : string)
    (email : option string) (e : string) :
  self_session s = None ->
  (falla E GetSession = None -> falla E Commit = Some e ->
   falla E Rollback = None -> falla E Close = None ->
   UsuarioController.crear nombre apellido email E s
   = (Ok (false, "Error al crear usuario: " +:+ e), s))
  /\ (falla E GetSession = Some e ->
      (exists e', fst (UsuarioController.crear nombre apellido email E s) = Raise e')
      /\ snd (UsuarioController.crear nombre apellido email E s) = s).
Proof.
  destruct s as [ses d n out]; simpl; intros ->.
  cbv [UsuarioController.crear try_except_finally bind ret get_session
       db_get_session llamar session_add_usuario modificar_session
       session_commit session_rollback session_local close_session
       con_self_session con_db flush self_session db lecturas stdout].
  split.
  - intros Hget Hcommit Hroll Hclose.
    rewrite Hget. simpl. rewrite Hcommit. simpl. rewrite Hroll. simpl.
    by rewrite Hclose.
  - intros Hget. rewrite Hget. simpl. eauto.
Qed.

Lemma crear_usuario_falla_witness :
  self_session (estado_inicial biblioteca) = None
  /\ falla entorno_sin_sesion GetSession = Some "could not open a session"
  /\ exists e',
       fst (UsuarioController.crear "Ana" "Pérez" None entorno_sin_sesion
              (estado_inicial biblioteca)) = Raise e'.
Proof.
  repeat (split; [reflexivity|]).
  exact (proj1 (proj2 (crear_usuario_falla entorno_sin_sesion
                         (estado_inicial biblioteca) "Ana" "Pérez" None
                         "could not open a session" eq_refl) eq_refl)).
Defined.

(** ** Any sequence of requests *)






















(** ** The console *)

Lemma len_app (a b : string) : len (a +:+ b) = (len a + len b)%nat.
Proof. induction a as [|c a IH]; simpl; [done|]. rewrite IH. lia. Qed.

Lemma len_espacios (n : nat) : len (repetir " " n) = n.
Proof.
  induction n as [|n IH]; [done|].
  change (len (repetir " " (S n))) with (S (len (repetir " " n))).
  by rewrite IH.
Qed.

Lemma len_hasta (n : nat) (s : string) : len (hasta n s) = Nat.min n (len s).
Proof.
  revert n. induction s as [|c s IH]; intros n; simpl; [lia|].
  destruct (es_continuacion c) eqn:Hc; simpl; rewrite ?Hc.
  - apply IH.
  - destruct n as [|n]; simpl; [done|]. rewrite Hc, IH. done.
Qed.

Lemma len_ljust (ancho : nat) (s : string) :
  len (ljust ancho s) = Nat.max ancho (len s).
Proof. unfold ljust. rewrite len_app, len_espacios. lia. Qed.

(** X21. In the table of [mostrar_lista_libros] a row is as wide as the
    header, 93 characters, exactly when the ISBN has at most 15 characters;
    title, author and category are cut to 34, 24 and 14 characters and never
    widen the row, a longer ISBN does: the row has 78 characters plus the
    width of the ISBN. *)
Theorem fila_ancho (libro : LibroCargado) :
  len (ConsoleView.fila libro) = (Nat.max 15 (len (ISBN libro)) + 78)%nat
  /\ len (ljust 15 "ISBN" +:+ " " +:+ ljust 35 "TÍTULO" +:+ " " +:+
          ljust 25 "AUTOR" +:+ " " +:+ ljust 15 "CATEGORÍA") = 93%nat
  /\ (len (ConsoleView.fila libro) = 93%nat <-> (len (ISBN libro) <= 15)%nat).
Proof.
  assert (len (ConsoleView.fila libro)
          = (Nat.max 15 (len (ISBN libro)) + 78)%nat) as Hfila.
  { unfold ConsoleView.fila.
    rewrite !len_app, !len_ljust, !len_hasta. simpl (len " "). lia. }
  split; [exact Hfila|]. split; [reflexivity|]. rewrite Hfila. lia.
Qed.

(** A hyphenated ISBN-13 has 17 characters and widens its row to 95. *)
Lemma fila_isbn_largo :
  len (ConsoleView.fila
         (libro_cargado biblioteca "978-84-376-0494-7" cien_años)) = 95%nat.
Proof. reflexivity. Qed.

(** *** Pieces that write nothing to the store *)

Lemma quieto_retc {A} (a : A) : quieto (retc a).
Proof. intros E c. simpl. done. Qed.

Lemma quieto_bindc {A B} (m : MC A) (k : A -> MC B) :
  quieto m -> (forall a, quieto (k a)) -> quieto (bindc m k).
Proof.
  intros Hm Hk E c. unfold bindc. destruct (Hm E c) as [H1 H2].
  destruct (m E c) as [[a| |e] c1]; simpl in *; [|done..].
  destruct (Hk a E c1) as [H3 H4]. split; [congruence|lia].
Qed.

Lemma quieto_elevar {A} (m : M A) : conserva_db m -> quieto (elevar m).
Proof.
  intros Hm E c. unfold elevar. specialize (Hm E (mundo c)).
  destruct (m E (mundo c)) as [[a|e] s]; simpl in *; done.
Qed.

Lemma quieto_imprimir linea : quieto (imprimir linea).
Proof. apply quieto_elevar, conserva_print. Qed.

Lemma quieto_input prompt : quieto (input prompt).
Proof.
  apply quieto_bindc; [apply quieto_imprimir|intros _].
  intros E [[|linea resto] m]; simpl; split; done || lia.
Qed.

Lemma consume_input prompt : consume (input prompt).
Proof.
  intros E c a c1. unfold input, bindc, imprimir, elevar, print. simpl.
  destruct (stdin c) eqn:Hc; intros H; simplify_eq/=. lia.
Qed.

Lemma consume_bindc_r {A B} (m : MC A) (k : A -> MC B) :
  quieto m -> (forall a, consume (k a)) -> consume (bindc m k).
Proof.
  intros Hm Hk E c b c2. unfold bindc. destruct (Hm E c) as [_ H2].
  destruct (m E c) as [[a| |e] c1] eqn:Hrun; simpl in *; [|done..].
  intros H. apply Hk in H. lia.
Qed.

Lemma consume_bindc_l {A B} (m : MC A) (k : A -> MC B) :
  consume m -> (forall a, quieto (k a)) -> consume (bindc m k).
Proof.
  intros Hm Hk E c b c2. unfold bindc.
  destruct (m E c) as [[a| |e] c1] eqn:Hrun; simpl in *; [|done..].
  apply Hm in Hrun. intros H. destruct (Hk a E c1) as [_ H2].
  rewrite H in H2. simpl in H2. lia.
Qed.

Lemma quieto_mostrar_lista_libros libros :
  quieto (ConsoleView.mostrar_lista_libros libros).
Proof.
  assert (forall l, quieto (ConsoleView.imprimir_filas l)) as Hfilas.
  { induction l as [|x l IH]; simpl; [apply quieto_retc|].
    apply quieto_bindc; [apply quieto_imprimir|done]. }
  destruct libros as [|x l]; simpl; [apply quieto_imprimir|].
  do 3 (apply quieto_bindc; [apply quieto_imprimir|intros _]).
  apply quieto_bindc; [apply (Hfilas (x :: l))|intros _].
  apply quieto_imprimir.
Qed.

Lemma quieto_pausar : quieto ConsoleView.pausar.
Proof.
  apply quieto_bindc; [apply quieto_input|intros _; apply quieto_retc].
Qed.

Lemma quieto_mostrar_mensaje m : quieto (ConsoleView.mostrar_mensaje m).
Proof. apply quieto_imprimir. Qed.

Lemma consume_mostrar_menu_libros : consume ConsoleView.mostrar_menu_libros.
Proof.
  unfold ConsoleView.mostrar_menu_libros.
  do 8 (apply consume_bindc_r; [apply quieto_imprimir|intros _]).
  apply consume_input.
Qed.

Lemma quieto_mostrar_menu_libros : quieto ConsoleView.mostrar_menu_libros.
Proof.
  unfold ConsoleView.mostrar_menu_libros.
  do 8 (apply quieto_bindc; [apply quieto_imprimir|intros _]).
  apply quieto_input.
Qed.

Lemma consume_mostrar_menu_principal : consume ConsoleView.mostrar_menu_principal.
Proof.
  unfold ConsoleView.mostrar_menu_principal.
  do 6 (apply consume_bindc_r; [apply quieto_imprimir|intros _]).
  apply consume_input.
Qed.

Lemma quieto_mostrar_menu_principal : quieto ConsoleView.mostrar_menu_principal.
Proof.
  unfold ConsoleView.mostrar_menu_principal.
  do 6 (apply quieto_bindc; [apply quieto_imprimir|intros _]).
  apply quieto_input.
Qed.

Lemma quieto_listar (m : M (list LibroCargado)) :
  conserva_db m ->
  quieto (let+ libros := elevar m in
          ConsoleView.mostrar_lista_libros libros >>>
          ConsoleView.pausar >>> retc true).
Proof.
  intros Hm. apply quieto_bindc; [by apply quieto_elevar|intros libros].
  apply quieto_bindc; [apply quieto_mostrar_lista_libros|intros _].
  apply quieto_bindc; [apply quieto_pausar|intros _]. apply quieto_retc.
Qed.

Lemma quieto_rama_menu_libros opcion :
  quieto
    (if String.eqb opcion "1" then
       let+ libros := elevar obtener_todos in
       ConsoleView.mostrar_lista_libros libros >>>
       ConsoleView.pausar >>> retc true
     else if String.eqb opcion "2" then
       let+ termino :=
         input (nl +:+ "Ingrese término de búsqueda (Título, Autor o ISBN): ") in
       let+ libros := elevar (buscar termino) in
       ConsoleView.mostrar_lista_libros libros >>>
       ConsoleView.pausar >>> retc true
     else if String.eqb opcion "3" then
       let+ libros := elevar obtener_disponibles in
       ConsoleView.mostrar_lista_libros libros >>>
       ConsoleView.pausar >>> retc true
     else if String.eqb opcion "4" then retc false
     else ConsoleView.mostrar_mensaje "Opción no válida." >>> retc true).
Proof.
  destruct (String.eqb opcion "1").
  { apply quieto_listar. apply conserva_lectura. }
  destruct (String.eqb opcion "2").
  { apply quieto_bindc; [apply quieto_input|intros termino].
    apply quieto_listar. apply conserva_buscar. }
  destruct (String.eqb opcion "3").
  { apply quieto_listar. apply conserva_lectura. }
  destruct (String.eqb opcion "4"); [apply quieto_retc|].
  apply quieto_bindc; [apply quieto_mostrar_mensaje|intros _; apply quieto_retc].
Qed.

Lemma quieto_vuelta_menu_libros : quieto BibliotecaApp.vuelta_menu_libros.
Proof.
  apply quieto_bindc; [apply quieto_mostrar_menu_libros|].
  apply quieto_rama_menu_libros.
Qed.

Lemma consume_vuelta_menu_libros : consume BibliotecaApp.vuelta_menu_libros.
Proof.
  apply consume_bindc_l; [apply consume_mostrar_menu_libros|].
  apply quieto_rama_menu_libros.
Qed.

(** [menu_libros] ends once it has enough passes, and writes nothing. *)
Lemma menu_libros_termina E n c :
  (length (stdin c) < n)%nat ->
  exists fin c',
    BibliotecaApp.menu_libros n E c = Some (fin, c')
    /\ db (mundo c') = db (mundo c)
    /\ (length (stdin c') <= length (stdin c))%nat.
Proof.
  revert c. induction n as [|n IH]; intros c Hn; [lia|]. simpl.
  destruct (quieto_vuelta_menu_libros E c) as [Hdb Hlen].
  destruct (BibliotecaApp.vuelta_menu_libros E c) as [[[|]| |e] c1] eqn:Hrun;
    simpl in *; try by eauto.
  apply consume_vuelta_menu_libros in Hrun.
  destruct (IH c1) as (fin & c' & H1 & H2 & H3); [lia|].
  exists fin, c'. split; [done|]. split; [congruence|lia].
Qed.

(** More passes than needed change nothing. *)
Lemma menu_libros_mas E n m c r :
  BibliotecaApp.menu_libros n E c = Some r -> (n <= m)%nat ->
  BibliotecaApp.menu_libros m E c = Some r.
Proof.
  revert m c. induction n as [|n IH]; intros m c Hrun Hnm; [done|].
  destruct m as [|m]; [lia|]. simpl in *.
  destruct (BibliotecaApp.vuelta_menu_libros E c) as [[[|]| |e] c1]; try done.
  apply IH; [done|lia].
Qed.

Lemma ejecutar_mas E n m c r :
  BibliotecaApp.ejecutar n E c = Some r -> (n <= m)%nat ->
  BibliotecaApp.ejecutar m E c = Some r.
Proof.
  revert m c. induction n as [|n IH]; intros m c Hrun Hnm; [done|].
  destruct m as [|m]; [lia|]. simpl in *.
  destruct (ConsoleView.mostrar_menu_principal E c) as [[opcion| |e] c1];
    try done.
  destruct (String.eqb opcion "1").
  - destruct (BibliotecaApp.menu_libros n E c1) as [[fin c2]|] eqn:Hmenu;
      [|done].
    rewrite (menu_libros_mas E n m c1 _ Hmenu) by lia.
    destruct fin; try done. apply IH; [done|lia].
  - destruct (String.eqb opcion "2"); [done|].
    apply IH; [done|lia].
Qed.

(** X22. The console program on a finite input.  Given more passes than
    there are lines to read, [ejecutar] always ends, and never by returning:
    it leaves through [sys.exit()] (option 2 of the main menu) or with an
    exception (the end of the input, or one that a controller let through).
    Whatever was typed and whatever the persistence layer did, the store is
    as it was: the console only reads.  More passes give the same result. *)
Theorem consola_termina (E : Entorno) (n : nat) (c : Consola) :
  (length (stdin c) < n)%nat ->
  exists fin c',
    BibliotecaApp.ejecutar n E c = Some (fin, c')
    /\ (fin = SystemExit \/ exists e, fin = Lanza e)
    /\ db (mundo c') = db (mundo c)
    /\ forall m, (n <= m)%nat -> BibliotecaApp.ejecutar m E c = Some (fin, c').
Proof.
  intros Hn.
  assert (exists fin c',
            BibliotecaApp.ejecutar n E c = Some (fin, c')
            /\ (fin = SystemExit \/ exists e, fin = Lanza e)
            /\ db (mundo c') = db (mundo c)) as (fin & c' & Hrun & Hfin & Hdb).
  { revert c Hn. induction n as [|n IH]; intros c Hn; [lia|]. simpl.
    destruct (quieto_mostrar_menu_principal E c) as [Hdb Hlen].
    destruct (ConsoleView.mostrar_menu_principal E c) as [[opcion| |e] c1]
      eqn:Hrun; simpl in *; [|by eauto 10..].
    apply consume_mostrar_menu_principal in Hrun.
    destruct (String.eqb opcion "1").
    - destruct (menu_libros_termina E n c1) as (fin & c2 & Hm & Hdb2 & Hlen2);
        [lia|].
      rewrite Hm. destruct fin as [[]| |e].
      + destruct (IH c2) as (fin & c' & H1 & H2 & H3); [lia|].
        exists fin, c'. split; [done|]. split; [done|]. congruence.
      + exists SystemExit, c2. split; [done|]. split; [by left|]. congruence.
      + exists (Lanza e), c2. split; [done|]. split; [by eauto|]. congruence.
    - destruct (String.eqb opcion "2").
      + eexists _, _. split; [reflexivity|]. simpl. split; [by left|done].
      + match goal with
        | |- context [BibliotecaApp.ejecutar n E ?c2] =>
            destruct (IH c2) as (fin & c' & H1 & H2 & H3); [simpl; lia|]
        end.
        exists fin, c'. split; [done|]. split; [done|]. simpl in H3.
        congruence. }
  exists fin, c'. split; [done|]. split; [done|]. split; [done|].
  intros m Hm. by apply (ejecutar_mas E n).
Qed.

Lemma consola_termina_witness :
  (length (stdin (consola_inicial ["1"; "2"; "García"; ""; "4"; "2"] biblioteca))
   < 7)%nat
  /\ exists c',
       BibliotecaApp.ejecutar 7 entorno_normal
         (consola_inicial ["1"; "2"; "García"; ""; "4"; "2"] biblioteca)
       = Some (SystemExit, c')
       /\ db (mundo c') = biblioteca.
Proof.
  assert (length (stdin (consola_inicial ["1"; "2"; "García"; ""; "4"; "2"]
                           biblioteca)) < 7)%nat as Hn by (simpl; lia).
  split; [exact Hn|].
  destruct (consola_termina entorno_normal 7
              (consola_inicial ["1"; "2"; "García"; ""; "4"; "2"] biblioteca) Hn)
    as (fin & c' & Hrun & _ & Hdb & _).
  exists c'. split; [|exact Hdb].
  rewrite Hrun. f_equal. f_equal.
  assert (fst <$> BibliotecaApp.ejecutar 7 entorno_normal
            (consola_inicial ["1"; "2"; "García"; ""; "4"; "2"] biblioteca)
          = Some SystemExit) as Hfin by (vm_compute; reflexivity).
  rewrite Hrun in Hfin. simpl in Hfin. congruence.
Defined.

(** What [buscar] does, for every term. *)
Lemma buscar_resultado E s termino_busqueda :
  self_session s = None -> falla E Close = None ->
  exists e,
    buscar termino_busqueda E s
    = (Ok [], {| self_session := None; db := db s; lecturas := lecturas s;
                 stdout := stdout s ++ ["Error en la búsqueda: " +:+ e] |}).
Proof.
  destruct s as [ses d n out]; simpl; intros -> Hclose.
  unfold buscar. rewrite getattr_Libro_Titulo.
  cbv [try_except_finally bind get_session db_get_session llamar raise
       close_session con_self_session print ret
       self_session db lecturas stdout].
  destruct (falla E GetSession) as [e|]; simpl; [by eauto|].
  rewrite Hclose. eauto.
Qed.

(** X23. Searching from the console never shows a book.  In the books menu,
    option 2 with any search term (closing the session working): after the
    menu and the prompts, [buscar] prints its error, the view prints
    "No se encontraron libros." and waits for Enter; the loop goes on and the
    store is untouched. *)
Theorem consola_buscar_sin_resultados (E : Entorno) (c : Consola)
    (termino intro : string) (resto : list string) :
  self_session (mundo c) = None ->
  falla E Close = None ->
  stdin c = "2" :: termino :: intro :: resto ->
  exists e antes,
    BibliotecaApp.vuelta_menu_libros E c
    = (Devuelve true,
       {| stdin := resto;
          mundo :=
            {| self_session := None;
               db := db (mundo c);
               lecturas := lecturas (mundo c);
               stdout :=
                 stdout (mundo c) ++ antes ++
                 ["Error en la búsqueda: " +:+ e;
                  nl +:+ "❌ No se encontraron libros.";
                  nl +:+ "Presione Enter para continuar..."] |} |}).
Proof.
  destruct c as [ent [ses d n out]]; cbn [stdin mundo self_session db lecturas stdout].
  intros -> Hclose ->.
  unfold BibliotecaApp.vuelta_menu_libros, ConsoleView.mostrar_menu_libros.
  cbv [bindc imprimir input elevar print stdin mundo
       self_session db lecturas stdout].
  change (String.eqb "2" "1") with false. change (String.eqb "2" "2") with true.
  cbv [bindc imprimir input elevar print stdin mundo
       self_session db lecturas stdout].
  match goal with
  | |- context [buscar termino E ?s] =>
      destruct (buscar_resultado E s termino eq_refl Hclose) as [e ->]
  end.
  exists e.
  exists [nl +:+ repetir "-" 40; "   GESTIÓN DE LIBROS"; repetir "-" 40;
          "1. Listar todos los libros"; "2. Buscar Libro";
          "3. Ver libros disponibles"; "4. Volver al menú principal";
          repetir "-" 40; "Seleccione una opción: ";
          nl +:+ "Ingrese término de búsqueda (Título, Autor o ISBN): "].
  cbv [ConsoleView.mostrar_lista_libros ConsoleView.pausar bindc imprimir input
       elevar print retc stdin mundo self_session db lecturas stdout].
  apply (f_equal (fun o =>
           (Devuelve true,
            {| stdin := resto;
               mundo := {| self_session := None; db := d; lecturas := n;
                           stdout := o |} |}))).
  by rewrite <- !app_assoc.
Qed.

Lemma consola_buscar_sin_resultados_witness :
  self_session (mundo (consola_inicial ["2"; "Cien años"; ""; "4"] biblioteca)) = None
  /\ falla entorno_normal Close = None
  /\ exists c',
       BibliotecaApp.vuelta_menu_libros entorno_normal
         (consola_inicial ["2"; "Cien años"; ""; "4"] biblioteca)
       = (Devuelve true, c')
       /\ stdin c' = ["4"] /\ db (mundo c') = biblioteca.
Proof.
  split; [reflexivity|]. split; [reflexivity|].
  destruct (consola_buscar_sin_resultados entorno_normal
              (consola_inicial ["2"; "Cien años"; ""; "4"] biblioteca)
              "Cien años" "" ["4"] eq_refl eq_refl eq_refl)
    as (e & antes & Hrun).
  eexists. split; [exact Hrun|]. split; reflexivity.
Defined.
